(** * The session controller [useSocketRun]

    A shallow embedding of the React hook [useSocketRun] (the event
    dispatcher, the session state and the two intents [startRun] and
    [sendChat]) together with the properties of its state machine.

    Modelling conventions.
    - A JavaScript string is the list of its UTF-16 code units.
    - An inbound payload has the TypeScript type [any]; it is modelled by the
      type [value] of JSON-like JavaScript values, with [JUndefined] for a
      missing payload or a missing property.
    - A handler is a computation in the monad [M]: it threads the [World]
      (the nine [useState] cells, the socket reference and the record of the
      [emit] calls made on the socket) and either returns or throws.  The
      state written before a throw is kept, as React keeps the updates that
      were queued before the exception.
    - Every handler and intent runs on the committed state: React renders
      between two operations.  [sendChat] is a closure over the [runId] of
      the render that built it ([useCallback] with the dependency [runId]);
      a caller that keeps an older callback keeps the older [runId], so the
      captured [runId] is an argument of [sendChat] and is not read from
      the cell.
    - [JSON.stringify] never fails on the values modelled.  The string
      conversion of a template literal can throw (an object whose own
      [toString] is not callable): the host's conversion is a partial
      function.
    - [crypto.randomUUID()] is an oracle: the operation that calls it takes
      the identifier it returns as the argument [uuid]. *)

From Stdlib Require Import List String Ascii Bool NArith ZArith QArith Lia.
Import ListNotations.
Close Scope Q_scope.
Open Scope string_scope.
Open Scope list_scope.

(** ** The JavaScript values the controller handles *)

Module JS.

(** UTF-16 code units and strings. *)
Definition char16 := N.
Definition jsstring := list char16.

(** An ASCII literal of the source as a JavaScript string. *)
Definition lit (s : string) : jsstring :=
  map N_of_ascii (list_ascii_of_string s).

(** The code units removed by [String.prototype.trim]: the ECMAScript
    WhiteSpace and LineTerminator code points (all in the BMP). *)
Definition isWhiteSpace (c : char16) : bool :=
  (existsb (N.eqb c)
     [9; 10; 11; 12; 13; 32; 160; 5760; 8232; 8233; 8239; 8287; 12288; 65279]
   || ((8192 <=? c) && (c <=? 8202)))%N.

Fixpoint trimStart (s : jsstring) : jsstring :=
  match s with
  | [] => []
  | c :: r => if isWhiteSpace c then trimStart r else s
  end.

Definition trimEnd (s : jsstring) : jsstring := rev (trimStart (rev s)).

Definition trim (s : jsstring) : jsstring := trimEnd (trimStart s).

(** [s.startsWith(prefix)] *)
Fixpoint startsWith (s prefix : jsstring) : bool :=
  match prefix, s with
  | [], _ => true
  | _ :: _, [] => false
  | p :: ps, c :: cs => N.eqb c p && startsWith cs ps
  end.

(** Truthiness of a string: it is not empty. *)
Definition nonempty (s : jsstring) : bool :=
  match s with [] => false | _ :: _ => true end.

#[warnings="-register-all"] Inductive value : Type :=
| JUndefined
| JNull
| JBool (b : bool)
| JNum (x : Q)
| JStr (s : jsstring)
| JArr (elems : list value)
| JObj (props : list (string * value)).

Fixpoint lookup (k : string) (props : list (string * value)) : value :=
  match props with
  | [] => JUndefined
  | (k', v) :: r => if String.eqb k k' then v else lookup k r
  end.

(** [v?.k] for the property names the controller reads: only an object
    has them; [null], [undefined], the primitives and arrays yield
    [undefined].  An object lists each of its keys once. *)
Definition get (v : value) (k : string) : value :=
  match v with
  | JObj props => lookup k props
  | _ => JUndefined
  end.

(** ToBoolean *)
Definition is_truthy (v : value) : bool :=
  match v with
  | JUndefined | JNull => false
  | JBool b => b
  | JNum x => negb (Qnum x =? 0)%Z
  | JStr s => nonempty s
  | JArr _ | JObj _ => true
  end.

(** [a || b] *)
Definition js_or (a b : value) : value := if is_truthy a then a else b.

(** [a ?? b] *)
Definition nullish (a b : value) : value :=
  match a with
  | JUndefined | JNull => b
  | _ => a
  end.

(** An optional string argument as a value. *)
Definition of_option (o : option jsstring) : value :=
  match o with
  | Some s => JStr s
  | None => JUndefined
  end.

End JS.
Import JS.

(** ** Session state *)

Inductive Stage := prompt | result.
Inductive ChatRole := user | agent.

Record ChatMessage := mkChatMessage {
  id : jsstring;
  role : ChatRole;
  text : jsstring;
  msgDownloadUrl : option jsstring
}.

(** An [emit(name, payload)] call on the socket. *)
Record Emit := mkEmit {
  ev_name : string;
  ev_payload : value
}.

(** The hook's cells.  [socketRef] tells whether [socketRef.current] holds
    the socket (from the mount effect to its cleanup); [wire] lists the
    [emit] calls made so far, oldest first.  [progressMessages] is declared
    [string[]] but receives whatever [onProgress] computes, so it is a list
    of values here and the lines being strings is a theorem. *)
Record World := mkWorld {
  socketRef : bool;
  wire : list Emit;
  connected : bool;
  stage : Stage;
  runId : value;
  progressMessages : list value;
  messages : list ChatMessage;
  summary : jsstring;
  downloadUrl : jsstring;
  error : option jsstring;
  awaitingUser : bool
}.

(** The first render: the initial values of the [useState] cells. *)
Definition initial : World :=
  {| socketRef := false; wire := []; connected := false; stage := prompt;
     runId := JNull; progressMessages := []; messages := []; summary := [];
     downloadUrl := []; error := None; awaitingUser := false |}.

(** ** The monad of handlers *)

Inductive Exn := TypeError.

Inductive Completion (A : Type) :=
| Returned (a : A)
| Thrown (e : Exn).
Arguments Returned {A} a.
Arguments Thrown {A} e.

Definition M (A : Type) : Type := World -> Completion A * World.

Definition ret {A} (a : A) : M A := fun w => (Returned a, w).

Definition throw {A} (e : Exn) : M A := fun w => (Thrown e, w).

Definition bind {A B} (m : M A) (k : A -> M B) : M B :=
  fun w =>
    match m w with
    | (Returned a, w') => k a w'
    | (Thrown e, w') => (Thrown e, w')
    end.

Notation "x <- m ;; k" := (bind m (fun x => k))
  (at level 61, m at next level, right associativity).
Notation "m ;; k" := (bind m (fun _ => k))
  (at level 61, right associativity).

(** The world a computation leaves. *)
Definition exec {A} (m : M A) (w : World) : World := snd (m w).

(** The state setters of [useState]; each takes the updater function
    ([setX(v)] is [setX (fun _ => v)]). *)
Definition setConnected (b : bool) : M unit := fun w =>
  (Returned tt,
   mkWorld (socketRef w) (wire w) b (stage w) (runId w) (progressMessages w)
     (messages w) (summary w) (downloadUrl w) (error w) (awaitingUser w)).

Definition setStage (s : Stage) : M unit := fun w =>
  (Returned tt,
   mkWorld (socketRef w) (wire w) (connected w) s (runId w)
     (progressMessages w) (messages w) (summary w) (downloadUrl w) (error w)
     (awaitingUser w)).

Definition setRunId (r : value) : M unit := fun w =>
  (Returned tt,
   mkWorld (socketRef w) (wire w) (connected w) (stage w) r
     (progressMessages w) (messages w) (summary w) (downloadUrl w) (error w)
     (awaitingUser w)).

Definition setProgressMessages (f : list value -> list value) : M unit :=
  fun w =>
  (Returned tt,
   mkWorld (socketRef w) (wire w) (connected w) (stage w) (runId w)
     (f (progressMessages w)) (messages w) (summary w) (downloadUrl w)
     (error w) (awaitingUser w)).

Definition setMessages (f : list ChatMessage -> list ChatMessage) : M unit :=
  fun w =>
  (Returned tt,
   mkWorld (socketRef w) (wire w) (connected w) (stage w) (runId w)
     (progressMessages w) (f (messages w)) (summary w) (downloadUrl w)
     (error w) (awaitingUser w)).

Definition setSummary (s : jsstring) : M unit := fun w =>
  (Returned tt,
   mkWorld (socketRef w) (wire w) (connected w) (stage w) (runId w)
     (progressMessages w) (messages w) s (downloadUrl w) (error w)
     (awaitingUser w)).

Definition setDownloadUrl (s : jsstring) : M unit := fun w =>
  (Returned tt,
   mkWorld (socketRef w) (wire w) (connected w) (stage w) (runId w)
     (progressMessages w) (messages w) (summary w) s (error w)
     (awaitingUser w)).

Definition setError (e : option jsstring) : M unit := fun w =>
  (Returned tt,
   mkWorld (socketRef w) (wire w) (connected w) (stage w) (runId w)
     (progressMessages w) (messages w) (summary w) (downloadUrl w) e
     (awaitingUser w)).

Definition setAwaitingUser (b : bool) : M unit := fun w =>
  (Returned tt,
   mkWorld (socketRef w) (wire w) (connected w) (stage w) (runId w)
     (progressMessages w) (messages w) (summary w) (downloadUrl w) (error w)
     b).

(** [socketRef.current?.emit(name, payload)] *)
Definition emit (name : string) (payload : value) : M unit := fun w =>
  if socketRef w
  then (Returned tt,
        mkWorld (socketRef w) (wire w ++ [mkEmit name payload]) (connected w)
          (stage w) (runId w) (progressMessages w) (messages w) (summary w)
          (downloadUrl w) (error w) (awaitingUser w))
  else (Returned tt, w).

(** The mount effect stores the socket in [socketRef]; its cleanup
    disconnects and clears the reference. *)
Definition mountEffect : M unit := fun w =>
  (Returned tt,
   mkWorld true (wire w) (connected w) (stage w) (runId w)
     (progressMessages w) (messages w) (summary w) (downloadUrl w) (error w)
     (awaitingUser w)).

Definition cleanup : M unit := fun w =>
  (Returned tt,
   mkWorld false (wire w) (connected w) (stage w) (runId w)
     (progressMessages w) (messages w) (summary w) (downloadUrl w) (error w)
     (awaitingUser w)).

(** The controller once mounted. *)
Definition mounted : World := exec mountEffect initial.

(** ** Handlers that do not serialize *)

Definition onConnected (payload : value) : M unit :=
  setConnected true.

Definition onError (payload : value) : M unit :=
  setError (Some (match get payload "message" with
                  | JStr m => m
                  | _ => lit "Unknown error"
                  end)).

Definition onRunStarted (payload : value) : M unit :=
  setRunId (js_or (get payload "run_id") JNull).

(** [l.startsWith(prefix)] on an array element of unknown type: only a
    string has the method; on [null] and [undefined] the property access
    throws, on anything else the call of a non-function throws. *)
Definition call_startsWith (l : value) (prefix : jsstring) : M bool :=
  match l with
  | JStr s => ret (startsWith s prefix)
  | _ => throw TypeError
  end.

(** [xs.find(pred)] *)
Fixpoint find (pred : value -> M bool) (xs : list value) : M value :=
  match xs with
  | [] => ret JUndefined
  | x :: r => b <- pred x ;; if b then ret x else find pred r
  end.

Definition onProgress (payload : value) : M unit :=
  setAwaitingUser false ;;
  let message : option jsstring :=
    match get payload "message" with JStr m => Some m | _ => None end in
  let fallback : M unit :=
    let lines : list value :=
      match get payload "snapshot" with JArr xs => xs | _ => [] end in
    let nodeLine : value :=
      match get payload "node" with JStr n => JStr n | _ => JUndefined end in
    readable <-
      (if is_truthy nodeLine then ret nodeLine
       else
         found <- find (fun l => call_startsWith l (lit "node:")) lines ;;
         ret (js_or (js_or found (nth 0 lines JUndefined))
                    (JStr (lit "Working...")))) ;;
    setProgressMessages (fun prev => prev ++ [readable]) in
  match message with
  | Some m =>
      if nonempty m && nonempty (trim m)
      then setProgressMessages (fun prev => prev ++ [JStr m])
      else fallback
  | None => fallback
  end.

Definition startRun (prompt_ : jsstring) (mcVersion author : option jsstring)
    (uuid : jsstring) : M unit :=
  if negb (nonempty (trim prompt_)) then ret tt
  else
    setProgressMessages (fun _ => []) ;;
    setSummary [] ;;
    setDownloadUrl [] ;;
    setMessages (fun _ => [mkChatMessage uuid user prompt_ None]) ;;
    setError None ;;
    setStage result ;;
    setAwaitingUser false ;;
    emit "start_run"
      (JObj [("prompt", JStr prompt_); ("author", of_option author);
             ("mc_version", of_option mcVersion)]).

(** [sendChat] as built by a render whose [runId] was [runId_]: the
    callback tests and sends the [runId] it closed over. *)
Definition sendChat (runId_ : value) (message : jsstring) (uuid : jsstring)
  : M unit :=
  let text_ := trim message in
  if negb (nonempty text_) then ret tt
  else
    setMessages (fun prev => prev ++ [mkChatMessage uuid user text_ None]) ;;
    setProgressMessages (fun _ => []) ;;
    setAwaitingUser false ;;
    if negb (is_truthy runId_) then ret tt
    else emit "chat" (JObj [("run_id", runId_); ("message", JStr text_)]).

(** ** Handlers that serialize, and the dispatcher

    [JSON.stringify], the string conversion of a template literal and the
    build-time variable [VITE_BACKEND_URL] belong to the host, not to the
    repository: the controller is parametric in them.  [ToString v] is
    [None] when the conversion of [v] throws [TypeError]. *)

Section Host.

Variable JSON_stringify : value -> jsstring.
Variable ToString : value -> option jsstring.
Variable VITE_BACKEND_URL : option jsstring.

(** [(import.meta as any).env?.VITE_BACKEND_URL || "http://localhost:5001"] *)
Definition BACKEND_URL : jsstring :=
  match VITE_BACKEND_URL with
  | Some u => if nonempty u then u else lit "http://localhost:5001"
  | None => lit "http://localhost:5001"
  end.

(** The conversion [${v}] of a template literal: a string is taken as it
    is, another value goes through the host's conversion, which can
    throw. *)
Definition template (v : value) : M jsstring :=
  match v with
  | JStr s => ret s
  | _ =>
      match ToString v with
      | Some s => ret s
      | None => throw TypeError
      end
  end.

Definition appendAgent (text_ : value) (dl : option jsstring)
    (uuid : jsstring) : M unit :=
  let t :=
    match text_ with
    | JStr s => s
    | _ => JSON_stringify (nullish text_ (JObj []))
    end in
  setMessages (fun prev => prev ++ [mkChatMessage uuid agent t dl]).

Definition onModReady (payload : value) (uuid : jsstring) : M unit :=
  let sum := get payload "summary" in
  let sumStr :=
    match sum with
    | JStr s => s
    | _ => JSON_stringify (nullish sum (JObj []))
    end in
  setSummary sumStr ;;
  let dl := js_or (get payload "download_url") (JStr []) in
  fullDl <-
    (if is_truthy dl
     then t <- template dl ;; ret (BACKEND_URL ++ t)
     else ret []) ;;
  setDownloadUrl fullDl ;;
  appendAgent (JStr sumStr) (if nonempty fullDl then Some fullDl else None)
    uuid ;;
  setStage result ;;
  setAwaitingUser true.

Definition onChatResponse (payload : value) (uuid : jsstring) : M unit :=
  let msg :=
    match get payload "message" with JStr m => m | _ => [] end in
  (if nonempty msg then appendAgent (JStr msg) None uuid else ret tt) ;;
  setAwaitingUser true.

(** One operation on the controller: an inbound event delivered to its
    handler, or an intent called by the presentation layer.  A call of
    [sendChat] names the [runId] captured by the callback that is called:
    the cell's value for the callback of the latest render, an earlier
    value for a callback that a caller has kept. *)
Inductive Op :=
| EvConnected (payload : value)
| EvError (payload : value)
| EvRunStarted (payload : value)
| EvProgress (payload : value)
| EvModReady (payload : value) (uuid : jsstring)
| EvChatResponse (payload : value) (uuid : jsstring)
| CallStartRun (prompt_ : jsstring) (mcVersion author : option jsstring)
    (uuid : jsstring)
| CallSendChat (captured : value) (message : jsstring) (uuid : jsstring).

Definition step (op : Op) : M unit :=
  match op with
  | EvConnected p => onConnected p
  | EvError p => onError p
  | EvRunStarted p => onRunStarted p
  | EvProgress p => onProgress p
  | EvModReady p u => onModReady p u
  | EvChatResponse p u => onChatResponse p u
  | CallStartRun p v a u => startRun p v a u
  | CallSendChat r m u => sendChat r m u
  end.

(** Operations are processed one at a time, in arrival order; an
    exception thrown by a handler ends that handler only. *)
Definition run (ops : list Op) (w : World) : World :=
  fold_left (fun w op => exec (step op) w) ops w.

End Host.

(** ** The spec's reading of the progress payload

    The protocol types the payload as [{message?, node?, snapshot?}] with
    string fields and a sequence of strings. *)

Record ProgressPayload := mkProgressPayload {
  pp_message : option jsstring;
  pp_node : option jsstring;
  pp_snapshot : option (list jsstring)
}.

Definition field (k : string) (o : option value) : list (string * value) :=
  match o with
  | Some v => [(k, v)]
  | None => []
  end.

Definition encode_progress (p : ProgressPayload) : value :=
  JObj (field "message" (option_map JStr (pp_message p))
        ++ field "node" (option_map JStr (pp_node p))
        ++ field "snapshot"
             (option_map (fun xs => JArr (map JStr xs)) (pp_snapshot p))).

(** The derivation of the progress line in the words of the spec:
    (1) [message] if non-empty after trimming; (2) [node] if present;
    (3) the first element of [snapshot] starting with ["node:"];
    (4) the first element of [snapshot]; (5) ["Working..."]. *)
Definition spec_progress_line (p : ProgressPayload) : jsstring :=
  let lines := match pp_snapshot p with Some xs => xs | None => [] end in
  let from_snapshot :=
    match List.find (fun l => startsWith l (lit "node:")) lines with
    | Some l => l
    | None =>
        match lines with
        | l :: _ => l
        | [] => lit "Working..."
        end
    end in
  let from_node :=
    match pp_node p with
    | Some n => n
    | None => from_snapshot
    end in
  match pp_message p with
  | Some m => if nonempty (trim m) then m else from_node
  | None => from_node
  end.

(** The same derivation with an empty [node] and an empty first element
    passed over: the line the code appends, on the fields read by
    [view_progress]. *)
Definition progress_line (p : ProgressPayload) : jsstring :=
  let lines := match pp_snapshot p with Some xs => xs | None => [] end in
  let from_snapshot :=
    match List.find (fun l => startsWith l (lit "node:")) lines with
    | Some l => l
    | None =>
        match lines with
        | l :: _ => if nonempty l then l else lit "Working..."
        | [] => lit "Working..."
        end
    end in
  let from_node :=
    match pp_node p with
    | Some n => if nonempty n then n else from_snapshot
    | None => from_snapshot
    end in
  match pp_message p with
  | Some m => if nonempty (trim m) then m else from_node
  | None => from_node
  end.

(** ** Derived notions used in the statements *)

(** The download link in the words of the spec, on a path typed
    [download_url?: string]: the base URL followed by the path when the
    path is present, the empty string otherwise. *)
Definition spec_download_url (base : jsstring) (D : option jsstring)
  : jsstring :=
  match D with
  | Some d => base ++ d
  | None => []
  end.

(** A [mod_ready] payload whose [download_url] is present and empty. *)
Definition mod_ready_empty_path : value :=
  JObj [("summary", JStr (lit "Done")); ("download_url", JStr [])].

(** [{node: "", snapshot: ["Plan"]}] *)
Definition progress_empty_node : ProgressPayload :=
  mkProgressPayload None (Some []) (Some [lit "Plan"]).

(** [{snapshot: ["", "Plan"]}] *)
Definition progress_empty_line : ProgressPayload :=
  mkProgressPayload None None (Some [[]; lit "Plan"]).

(** The world [onProgress] reaches before it derives the line. *)
Definition busy (w : World) : World := exec (setAwaitingUser false) w.

(** The world after one more progress line. *)
Definition with_line (line : value) (w : World) : World :=
  exec (setProgressMessages (fun prev => prev ++ [line])) w.

(** A [progress] payload whose snapshot holds a number. *)
Definition progress_number_line : value :=
  JObj [("snapshot", JArr [JNum 1])].

(** The operation is the delivery of a [run_started] event. *)
Definition is_run_started (op : Op) : bool :=
  match op with
  | EvRunStarted _ => true
  | _ => false
  end.

(** An emitted [chat] event carries a truthy [run_id]. *)
Definition chat_has_runId (e : Emit) : Prop :=
  if String.eqb (ev_name e) "chat"
  then is_truthy (get (ev_payload e) "run_id") = true
  else True.

(** The events an operation emits from a world, written out for the
    statements; [step_wire] proves that the code emits exactly these. *)
Definition emitted (op : Op) (w : World) : list Emit :=
  match op with
  | CallStartRun p v a _ =>
      if nonempty (trim p) && socketRef w
      then [mkEmit "start_run"
              (JObj [("prompt", JStr p); ("author", of_option a);
                     ("mc_version", of_option v)])]
      else []
  | CallSendChat r m _ =>
      if nonempty (trim m) && is_truthy r && socketRef w
      then [mkEmit "chat" (JObj [("run_id", r); ("message", JStr (trim m))])]
      else []
  | _ => []
  end.

(** The strings of an array, in order. *)
Fixpoint strings_of (xs : list value) : list jsstring :=
  match xs with
  | [] => []
  | JStr s :: r => s :: strings_of r
  | _ :: r => strings_of r
  end.

(** The fields of a progress payload as the handler reads them: a
    [message] or a [node] that is not a string counts as absent, and so
    does a [snapshot] that is not an array. *)
Definition view_progress (payload : value) : ProgressPayload :=
  {| pp_message :=
       match get payload "message" with JStr m => Some m | _ => None end;
     pp_node :=
       match get payload "node" with JStr n => Some n | _ => None end;
     pp_snapshot :=
       match get payload "snapshot" with
       | JArr xs => Some (strings_of xs)
       | _ => None
       end |}.

(** The snapshot of the payload, when it is an array, holds strings
    only. *)
Definition snapshot_of_strings (payload : value) : Prop :=
  match get payload "snapshot" with
  | JArr xs => Forall (fun x => exists s, x = JStr s) xs
  | _ => True
  end.

(** The text a template literal gives for a value: the value itself when
    it is a string, the host's conversion otherwise; [None] when that
    conversion throws. *)
Definition converted (ToString : value -> option jsstring) (v : value)
  : option jsstring :=
  match v with
  | JStr s => Some s
  | _ => ToString v
  end.

(** The [download_url] of a [mod_ready] payload is truthy and its string
    conversion throws (it is then not a string). *)
Definition mod_ready_throws (ToString : value -> option jsstring)
    (payload : value) : bool :=
  is_truthy (get payload "download_url")
  && match converted ToString (get payload "download_url") with
     | Some _ => false
     | None => true
     end.

(** A run in which the server sends [run_started] twice: the controller
    after [startRun], after the first event and after the second. *)
Definition after_startRun : World :=
  exec (startRun (lit "make a sword") None None (lit "id-1")) mounted.

Definition after_run_started_a : World :=
  exec (onRunStarted (JObj [("run_id", JStr (lit "run-a"))])) after_startRun.

Definition after_run_started_b : World :=
  exec (onRunStarted (JObj [("run_id", JStr (lit "run-b"))]))
    after_run_started_a.

(** A second [startRun] on the same controller. *)
Definition after_second_startRun : World :=
  exec (startRun (lit "make a bow") None None (lit "id-2")) after_startRun.

(** ** The presentation layer

    [StageContainer] renders one of two forms from the hook's state and
    forwards their submissions to the two intents.  The local state of the
    forms (the selected version, the textarea, the chat box) is kept in a
    [Page] beside the hook's [World]. *)

Definition AVAILABLE_MC_VERSIONS : list jsstring :=
  map lit ["1.21.1"; "1.21.3"; "1.21.4"; "1.21.5"; "1.21.6"; "1.21.7";
           "1.21.8"].

(** [HeroForm.handleSubmit]: the text is
    [inputRef.current?.value?.trim() || ""]. *)
Definition HeroForm_handleSubmit
    (onSubmit : option (jsstring -> option jsstring -> M unit))
    (inputRef : option jsstring) (mcVersion : jsstring) : M unit :=
  let text_ :=
    match inputRef with
    | Some v => if nonempty (trim v) then trim v else []
    | None => []
    end in
  match onSubmit with
  | Some f => f text_ (Some mcVersion)
  | None => ret tt
  end.

(** [StageContainer.handleSubmit] *)
Definition handleSubmit (uuid : jsstring) (text_ : jsstring)
    (mcVersion : option jsstring) : M unit :=
  if negb (nonempty text_) then ret tt
  else startRun text_ mcVersion None uuid.

(** [StageContainer.handleSendMessage], over the [sendChat] it closes
    over. *)
Definition handleSendMessage (sendChat_ : jsstring -> M unit)
    (message : jsstring) : M unit :=
  if negb (nonempty (trim message)) then ret tt
  else sendChat_ message.

(** The submit handler of the composer of [ResultStage]; it returns the
    new content of the chat box (the local state [message]). *)
Definition ResultStage_onSubmit (onSendMessage : option (jsstring -> M unit))
    (isBusy : bool) (message : jsstring) : M jsstring :=
  let text_ := trim message in
  if negb (nonempty text_) || isBusy then ret message
  else
    (match onSendMessage with
     | Some f => f text_
     | None => ret tt
     end) ;;
    ret [].

(** [messages[messages.length - 1] || "Working..."], the status line of
    [StageContainer] and of [LoadingStage]. *)
Definition latest (progress : list value) : value :=
  js_or (last progress JUndefined) (JStr (lit "Working...")).

(** What [StageContainer] renders. *)
Inductive View :=
| HeroFormView
| ResultStageView (msgs : list ChatMessage) (isBusy : bool)
    (statusMessage : value).

Definition content (w : World) : View :=
  match stage w with
  | prompt => HeroFormView
  | result =>
      ResultStageView (messages w) (negb (awaitingUser w))
        (latest (progressMessages w))
  end.

Record Page := mkPage {
  hook : World;
  mcVersion : jsstring;
  selectOpen : bool;
  promptInput : jsstring;
  chatInput : jsstring
}.

(** The page once the hook is mounted: [HeroForm] starts on the first
    version, with the list closed and both inputs empty. *)
Definition page0 : Page :=
  {| hook := mounted;
     mcVersion := nth 0 AVAILABLE_MC_VERSIONS [];
     selectOpen := false;
     promptInput := [];
     chatInput := [] |}.

(** What can happen to the page: the delivery of an inbound event, or a
    user action on the form that is rendered.  [SubmitChat] carries the
    [runId] captured by the [sendChat] that the memoized [content] holds
    (its dependencies leave [runId] and [sendChat] out, so it can be older
    than the cell). *)
Inductive UiOp :=
| Inbound (op : Op)
| TypePrompt (s : jsstring)
| ToggleVersions
| ClickVersion (i : nat)
| MouseDownOutside
| SubmitHero (uuid : jsstring)
| TypeChat (s : jsstring)
| SubmitChat (captured : value) (uuid : jsstring).

Definition is_intent (op : Op) : bool :=
  match op with
  | CallStartRun _ _ _ _ | CallSendChat _ _ _ => true
  | _ => false
  end.

Section PageHost.

Variable JSON_stringify : value -> jsstring.
Variable ToString : value -> option jsstring.
Variable VITE_BACKEND_URL : option jsstring.

(** One step of the page.  The forms exist only while rendered:
    [HeroForm] in stage [prompt], [ResultStage] afterwards; the chat box
    is disabled while the agent is busy; the page reaches the intents only
    through the two submit handlers. *)
Definition page_step (op : UiOp) (pg : Page) : Page :=
  match op, stage (hook pg) with
  | Inbound ev, _ =>
      if is_intent ev then pg
      else
        mkPage
          (exec (step JSON_stringify ToString VITE_BACKEND_URL ev) (hook pg))
          (mcVersion pg) (selectOpen pg) (promptInput pg) (chatInput pg)
  | TypePrompt s, prompt =>
      mkPage (hook pg) (mcVersion pg) (selectOpen pg) s (chatInput pg)
  | ToggleVersions, prompt =>
      mkPage (hook pg) (mcVersion pg) (negb (selectOpen pg)) (promptInput pg)
        (chatInput pg)
  | ClickVersion i, prompt =>
      if selectOpen pg
      then
        match nth_error AVAILABLE_MC_VERSIONS i with
        | Some opt =>
            mkPage (hook pg) opt false (promptInput pg) (chatInput pg)
        | None => pg
        end
      else pg
  | MouseDownOutside, prompt =>
      mkPage (hook pg) (mcVersion pg) false (promptInput pg) (chatInput pg)
  | SubmitHero uuid, prompt =>
      mkPage
        (exec (HeroForm_handleSubmit (Some (handleSubmit uuid))
                 (Some (promptInput pg)) (mcVersion pg)) (hook pg))
        (mcVersion pg) (selectOpen pg) (promptInput pg) (chatInput pg)
  | TypeChat s, result =>
      if awaitingUser (hook pg)
      then mkPage (hook pg) (mcVersion pg) (selectOpen pg) (promptInput pg) s
      else pg
  | SubmitChat captured uuid, result =>
      match
        ResultStage_onSubmit
          (Some (handleSendMessage
                   (fun m => sendChat captured m uuid)))
          (negb (awaitingUser (hook pg))) (chatInput pg) (hook pg)
      with
      | (Returned box, w') =>
          mkPage w' (mcVersion pg) (selectOpen pg) (promptInput pg) box
      | (Thrown _, w') =>
          mkPage w' (mcVersion pg) (selectOpen pg) (promptInput pg)
            (chatInput pg)
      end
  | _, _ => pg
  end.

Definition page_run (ops : list UiOp) (pg : Page) : Page :=
  fold_left (fun pg op => page_step op pg) ops pg.

End PageHost.

(** The number of [start_run] events among the emitted ones. *)
Definition start_runs (es : list Emit) : nat :=
  List.length (filter (fun e => String.eqb (ev_name e) "start_run") es).

(** A progress line as the log holds it: a non-empty string. *)
Definition is_line (v : value) : Prop :=
  exists s : jsstring, v = JStr s /\ s <> [].

(** [pre] is the beginning of [s]. *)
Definition begins_with (pre s : jsstring) : Prop :=
  exists rest : jsstring, s = pre ++ rest.

(** A message as the log can hold it: a user message has a text that does
    not trim to empty and no link; a link is non-empty and begins with the
    backend base URL. *)
Definition well_formed_message (base : jsstring) (m : ChatMessage) : Prop :=
  match role m with
  | user => trim (text m) <> [] /\ msgDownloadUrl m = None
  | agent =>
      match msgDownloadUrl m with
      | Some u => u <> [] /\ begins_with base u
      | None => True
      end
  end.

Definition is_ready (op : Op) : bool :=
  match op with
  | EvModReady _ _ | EvChatResponse _ _ => true
  | _ => false
  end.

Definition is_progress (op : Op) : bool :=
  match op with
  | EvProgress _ => true
  | _ => false
  end.

Definition clears_error (op : Op) : bool :=
  match op with
  | CallStartRun p _ _ _ => nonempty (trim p)
  | _ => false
  end.

(** The operation sets the stage to [result]: a [mod_ready] event whose
    handler returns, or a [startRun] with a non-blank prompt. *)
Definition leaves_prompt (ToString : value -> option jsstring) (op : Op)
  : bool :=
  match op with
  | EvModReady p _ => negb (mod_ready_throws ToString p)
  | CallStartRun p _ _ _ => nonempty (trim p)
  | _ => false
  end.

Definition is_connected (op : Op) : bool :=
  match op with
  | EvConnected _ => true
  | _ => false
  end.

(** The number of operations of a kind in a trace. *)
Definition count_ops (f : Op -> bool) (ops : list Op) : nat :=
  List.length (filter f ops).

(** The name of an emitted event is one of the two outbound names. *)
Definition outbound_name (e : Emit) : Prop :=
  ev_name e = "start_run" \/ ev_name e = "chat".

(** The number of [chat] events among the emitted ones. *)
Definition chats (es : list Emit) : nat :=
  List.length (filter (fun e => String.eqb (ev_name e) "chat") es).

(** The number of [mod_ready] and [chat_response] events delivered to the
    page. *)
Definition readies (ops : list UiOp) : nat :=
  List.length
    (filter (fun op => match op with
                       | Inbound ev => is_ready ev
                       | _ => false
                       end) ops).

(** A [start_run] event as the hero form sends it: a trimmed, non-empty
    prompt, no author and one of the listed versions. *)
Definition hero_start_run (e : Emit) : Prop :=
  if String.eqb (ev_name e) "start_run"
  then exists p v : jsstring,
         p <> [] /\ trim p = p /\ In v AVAILABLE_MC_VERSIONS
         /\ ev_payload e =
            JObj [("prompt", JStr p); ("author", JUndefined);
                  ("mc_version", JStr v)]
  else True.

(** A page whose run has reached [mod_ready], with a follow-up typed into
    the chat box (the serializers of the host are not consulted on this
    trace). *)
Definition page_idle : Page :=
  page_run (fun _ => []) (fun _ => None) None
    [TypePrompt (lit " a ruby sword ");
     SubmitHero (lit "id-1");
     Inbound (EvRunStarted (JObj [("run_id", JStr (lit "run-a"))]));
     Inbound (EvModReady (JObj [("summary", JStr (lit "Done"))]) (lit "id-2"));
     TypeChat (lit " more gold ")]
    page0.

(** The same page after one more [run_started] event, without [run_id]:
    the cell is reset to [null], and none of the dependencies of the
    memoized [content] has changed, so the composer still holds the
    callback built when the cell held ["run-a"]. *)
Definition page_stale : Page :=
  page_step (fun _ => []) (fun _ => None) None
    (Inbound (EvRunStarted (JObj []))) page_idle.

(** ** Basic facts *)

Lemma nonempty_true (s : jsstring) : s <> [] -> nonempty s = true.
Proof. destruct s; [contradiction | reflexivity]. Qed.

Lemma nonempty_trim (s : jsstring) :
  nonempty (trim s) = true -> nonempty s = true.
Proof. destruct s; [discriminate | reflexivity]. Qed.

Lemma BACKEND_URL_nonempty (env : option jsstring) :
  nonempty (BACKEND_URL env) = true.
Proof.
  unfold BACKEND_URL.
  destruct env as [u|]; [|reflexivity].
  destruct (nonempty u) eqn:E; [exact E | reflexivity].
Qed.

(** [find] with the [startsWith] callback on an array of strings never
    throws and agrees with the pure search. *)
Lemma find_strings (pre : jsstring) (xs : list jsstring) (w : World) :
  find (fun l => call_startsWith l pre) (map JStr xs) w =
  (Returned (match List.find (fun l => startsWith l pre) xs with
             | Some l => JStr l
             | None => JUndefined
             end), w).
Proof.
  induction xs as [|x xs IH]; [reflexivity|].
  simpl. unfold bind, call_startsWith, ret. simpl.
  destruct (startsWith x pre); [reflexivity | exact IH].
Qed.

Lemma find_some_startsWith (pre : jsstring) (xs : list jsstring) (l : jsstring) :
  List.find (fun l => startsWith l pre) xs = Some l -> startsWith l pre = true.
Proof. intros H. apply find_some in H. apply H. Qed.

Lemma startsWith_nonempty (s pre : jsstring) :
  pre <> [] -> startsWith s pre = true -> nonempty s = true.
Proof.
  destruct pre; [contradiction|]. destruct s; [discriminate | reflexivity].
Qed.

(** [find] leaves the world untouched, whether it returns or throws. *)
Lemma find_world (pre : jsstring) (xs : list value) (w : World) :
  snd (find (fun l => call_startsWith l pre) xs w) = w.
Proof.
  induction xs as [|x xs IH]; [reflexivity|].
  simpl. unfold bind. destruct x; simpl; try reflexivity.
  destruct (startsWith s pre); [reflexivity | exact IH].
Qed.

(** What [find] returns is a string of the array that has the prefix, or
    [undefined] when every element is a string without it. *)
Lemma find_returned (pre : jsstring) (xs : list value) (w : World) (v : value) :
  fst (find (fun l => call_startsWith l pre) xs w) = Returned v ->
  (exists s, v = JStr s /\ startsWith s pre = true)
  \/ (v = JUndefined /\ Forall (fun x => exists s, x = JStr s) xs).
Proof.
  induction xs as [|x xs IH]; simpl.
  - intros H. injection H as <-. right. split; constructor.
  - unfold bind. destruct x; simpl; try discriminate.
    destruct (startsWith s pre) eqn:E; simpl.
    + intros H. injection H as <-. left. exists s. split; [reflexivity | exact E].
    + intros H. destruct (IH H) as [Hl | [Hu Hall]]; [left; exact Hl|].
      right. split; [exact Hu|]. constructor; [exists s; reflexivity | exact Hall].
Qed.

(** ** The two intents *)

(** Runs the setters of a handler body, innermost world first. *)
Ltac run_handler :=
  cbv beta iota zeta delta
    [bind ret emit setConnected setStage setRunId
     setProgressMessages setMessages setSummary setDownloadUrl setError
     setAwaitingUser socketRef wire connected stage runId progressMessages
     messages summary downloadUrl error awaitingUser negb].

(** C1.  On a mounted controller, [startRun] with a prompt that does not
    trim to empty clears the progress log, the summary and the download
    URL, replaces the message log with the single user message carrying the
    raw prompt, clears the error, sets [stage] to [result] and
    [awaitingUser] to [false], and makes exactly one [emit] call:
    [start_run] with [{prompt, author, mc_version: mcVersion}].  The cells
    [connected] and [runId] keep their values. *)
Theorem startRun_nonblank
    (w : World) (P : jsstring) (mcVersion author : option jsstring)
    (uuid : jsstring) :
  trim P <> [] ->
  socketRef w = true ->
  startRun P mcVersion author uuid w =
  (Returned tt,
   {| socketRef := true;
      wire := wire w ++
        [mkEmit "start_run"
           (JObj [("prompt", JStr P); ("author", of_option author);
                  ("mc_version", of_option mcVersion)])];
      connected := connected w;
      stage := result;
      runId := runId w;
      progressMessages := [];
      messages := [mkChatMessage uuid user P None];
      summary := [];
      downloadUrl := [];
      error := None;
      awaitingUser := false |}).
Proof.
  intros HP Hs. unfold startRun.
  rewrite (nonempty_true _ HP).
  destruct w. cbn [socketRef] in Hs. subst. reflexivity.
Qed.

(** C1, an instance on the freshly mounted controller. *)
Lemma startRun_nonblank_witness :
  trim (lit "  add a ruby sword ") <> [] /\
  socketRef mounted = true /\
  startRun (lit "  add a ruby sword ") (Some (lit "1.21.1")) None (lit "id-1")
    mounted =
  (Returned tt,
   {| socketRef := true;
      wire :=
        [mkEmit "start_run"
           (JObj [("prompt", JStr (lit "  add a ruby sword "));
                  ("author", JUndefined);
                  ("mc_version", JStr (lit "1.21.1"))])];
      connected := false;
      stage := result;
      runId := JNull;
      progressMessages := [];
      messages :=
        [mkChatMessage (lit "id-1") user (lit "  add a ruby sword ") None];
      summary := [];
      downloadUrl := [];
      error := None;
      awaitingUser := false |}).
Proof.
  split; [vm_compute; discriminate|].
  split; [reflexivity|].
  apply (startRun_nonblank mounted (lit "  add a ruby sword ")
           (Some (lit "1.21.1")) None (lit "id-1"));
    [vm_compute; discriminate | reflexivity].
Defined.

(** C9.  A blank or whitespace-only input (one that trims to empty) makes
    [startRun] and [sendChat] (whatever [runId] the callback holds) return
    at once: the world, that is every state cell and the record of emitted
    events, is unchanged. *)
Theorem blank_input_is_noop
    (w : World) (s : jsstring) (mcVersion author : option jsstring)
    (r : value) (uuid : jsstring) :
  trim s = [] ->
  startRun s mcVersion author uuid w = (Returned tt, w)
  /\ sendChat r s uuid w = (Returned tt, w).
Proof.
  intros Hs. unfold startRun, sendChat. rewrite Hs. simpl.
  split; reflexivity.
Qed.

(** C9, an instance: three spaces, with a callback that holds a run id. *)
Lemma blank_input_is_noop_witness :
  trim (lit "   ") = [] /\
  startRun (lit "   ") (Some (lit "1.21.1")) None (lit "id-1") mounted =
    (Returned tt, mounted)
  /\ sendChat (JStr (lit "run-a")) (lit "   ") (lit "id-1") mounted =
     (Returned tt, mounted).
Proof.
  split; [reflexivity|].
  apply (blank_input_is_noop mounted (lit "   ") (Some (lit "1.21.1")) None
           (JStr (lit "run-a")) (lit "id-1")).
  reflexivity.
Defined.



(** ** Inbound events *)

(** C8.  [chat_response]: when the payload's [message] is a non-empty
    string, exactly one agent message with that text and no download link
    is appended; when it is absent, empty or not a string, the message log
    is unchanged.  In both cases [awaitingUser] becomes [true], the handler
    returns normally and nothing else changes. *)
Theorem onChatResponse_spec
    (JSON_stringify : value -> jsstring) (w : World) (payload : value)
    (uuid : jsstring) :
  onChatResponse JSON_stringify payload uuid w =
  (Returned tt,
   {| socketRef := socketRef w;
      wire := wire w;
      connected := connected w;
      stage := stage w;
      runId := runId w;
      progressMessages := progressMessages w;
      messages :=
        match get payload "message" with
        | JStr (c :: m) =>
            messages w ++ [mkChatMessage uuid agent (c :: m) None]
        | _ => messages w
        end;
      summary := summary w;
      downloadUrl := downloadUrl w;
      error := error w;
      awaitingUser := true |}).
Proof.
  unfold onChatResponse, appendAgent.
  destruct (get payload "message") as [| | b | x | [|c m] | xs | ps];
    reflexivity.
Qed.

(** The outcome of [onModReady] on any payload. *)
Lemma onModReady_outcome
    (JSON_stringify : value -> jsstring)
    (ToString : value -> option jsstring)
    (VITE_BACKEND_URL : option jsstring)
    (w : World) (payload : value) (uuid : jsstring) :
  let S := get payload "summary" in
  let D := get payload "download_url" in
  let base := BACKEND_URL VITE_BACKEND_URL in
  let summaryText :=
    match S with
    | JStr s => s
    | JUndefined | JNull => JSON_stringify (JObj [])
    | _ => JSON_stringify S
    end in
  onModReady JSON_stringify ToString VITE_BACKEND_URL payload uuid w =
  if is_truthy D
  then
    match converted ToString D with
    | Some t =>
        (Returned tt,
         mkWorld (socketRef w) (wire w) (connected w) result (runId w)
           (progressMessages w)
           (messages w ++
            [mkChatMessage uuid agent summaryText (Some (base ++ t))])
           summaryText (base ++ t) (error w) true)
    | None =>
        (Thrown TypeError,
         mkWorld (socketRef w) (wire w) (connected w) (stage w) (runId w)
           (progressMessages w) (messages w) summaryText (downloadUrl w)
           (error w) (awaitingUser w))
    end
  else
    (Returned tt,
     mkWorld (socketRef w) (wire w) (connected w) result (runId w)
       (progressMessages w)
       (messages w ++ [mkChatMessage uuid agent summaryText None])
       summaryText [] (error w) true).
Proof.
  cbv zeta. unfold onModReady, appendAgent, js_or.
  set (base := BACKEND_URL VITE_BACKEND_URL).
  assert (Hb : forall t, nonempty (base ++ t) = true).
  { intros t. pose proof (BACKEND_URL_nonempty VITE_BACKEND_URL) as H.
    fold base in H. destruct base; [discriminate | reflexivity]. }
  assert (Hsum :
    match get payload "summary" with
    | JStr s => s
    | _ => JSON_stringify (nullish (get payload "summary") (JObj []))
    end =
    match get payload "summary" with
    | JStr s => s
    | JUndefined | JNull => JSON_stringify (JObj [])
    | _ => JSON_stringify (get payload "summary")
    end).
  { destruct (get payload "summary"); reflexivity. }
  rewrite Hsum. clear Hsum.
  unfold bind at 1. cbn [setSummary].
  destruct (is_truthy (get payload "download_url")) eqn:E;
    [rewrite E | cbn [is_truthy nonempty]; destruct w; reflexivity].
  unfold converted, template.
  destruct (get payload "download_url") as [| | b | x | d | xs | ps];
    try discriminate E;
    try (destruct (ToString _) as [t|]);
    cbv beta iota delta [bind ret throw]; rewrite ?Hb;
    destruct w; reflexivity.
Qed.

(** C3 (as amended).  [mod_ready] with summary [S] and download path [D]:
    the stored summary is [S] when [S] is a string and
    [JSON.stringify(S ?? {})] otherwise.  When [D] is absent, empty or
    otherwise falsy, the stored download URL is the empty string and one
    agent message with the summary text and no link is appended.  When [D]
    is truthy and its string conversion succeeds (a non-empty string is
    taken verbatim, without escaping or normalization), the stored URL is
    the backend base URL followed by that text, and one agent message with
    the summary text and that link is appended.  In both cases [stage]
    becomes [result] and [awaitingUser] becomes [true].  With the default
    base ["http://localhost:5001"] and [D = "/files/x.zip"] the appended
    message links to ["http://localhost:5001/files/x.zip"].  In the case
    the amended claim leaves out, a truthy [D] that is not a string and
    whose conversion throws, the handler throws [TypeError] with the
    summary stored and nothing else written. *)
Theorem onModReady_spec
    (JSON_stringify : value -> jsstring)
    (ToString : value -> option jsstring)
    (VITE_BACKEND_URL : option jsstring)
    (w : World) (payload : value) (uuid : jsstring) :
  let S := get payload "summary" in
  let D := get payload "download_url" in
  let base := BACKEND_URL VITE_BACKEND_URL in
  let summaryText :=
    match S with
    | JStr s => s
    | JUndefined | JNull => JSON_stringify (JObj [])
    | _ => JSON_stringify S
    end in
  (if is_truthy D
   then
     match converted ToString D with
     | Some t =>
         onModReady JSON_stringify ToString VITE_BACKEND_URL payload uuid w =
         (Returned tt,
          {| socketRef := socketRef w;
             wire := wire w;
             connected := connected w;
             stage := result;
             runId := runId w;
             progressMessages := progressMessages w;
             messages :=
               messages w ++
               [mkChatMessage uuid agent summaryText (Some (base ++ t))];
             summary := summaryText;
             downloadUrl := base ++ t;
             error := error w;
             awaitingUser := true |})
     | None =>
         onModReady JSON_stringify ToString VITE_BACKEND_URL payload uuid w =
         (Thrown TypeError,
          {| socketRef := socketRef w;
             wire := wire w;
             connected := connected w;
             stage := stage w;
             runId := runId w;
             progressMessages := progressMessages w;
             messages := messages w;
             summary := summaryText;
             downloadUrl := downloadUrl w;
             error := error w;
             awaitingUser := awaitingUser w |})
     end
   else
     onModReady JSON_stringify ToString VITE_BACKEND_URL payload uuid w =
     (Returned tt,
      {| socketRef := socketRef w;
         wire := wire w;
         connected := connected w;
         stage := result;
         runId := runId w;
         progressMessages := progressMessages w;
         messages := messages w ++ [mkChatMessage uuid agent summaryText None];
         summary := summaryText;
         downloadUrl := [];
         error := error w;
         awaitingUser := true |}))
  /\ (forall d : jsstring, converted ToString (JStr d) = Some d)
  /\ BACKEND_URL None = lit "http://localhost:5001"
  /\ messages
       (exec (onModReady JSON_stringify ToString None
                (JObj [("summary", JStr (lit "Done"));
                       ("download_url", JStr (lit "/files/x.zip"))]) uuid) w)
     = messages w ++
       [mkChatMessage uuid agent (lit "Done")
          (Some (lit "http://localhost:5001/files/x.zip"))].
Proof.
  cbv zeta. split; [|split; [reflexivity | split; reflexivity]].
  pose proof (onModReady_outcome JSON_stringify ToString VITE_BACKEND_URL
                w payload uuid) as H.
  cbv zeta in H.
  destruct (is_truthy (get payload "download_url")); [|exact H].
  destruct (converted ToString (get payload "download_url")); exact H.
Qed.

(** C3, counterexample.  On [{summary: "Done", download_url: ""}] the path
    is present, so the claim makes the stored download URL the base URL
    ["http://localhost:5001"]; the code stores the empty string and appends
    a message without link, whatever the host's serializers. *)
Lemma onModReady_empty_path_departs :
  (forall (JSON_stringify : value -> jsstring)
          (ToString : value -> option jsstring) (w : World)
          (uuid : jsstring),
      downloadUrl
        (exec (onModReady JSON_stringify ToString None mod_ready_empty_path
                 uuid) w) = []
      /\ messages
           (exec (onModReady JSON_stringify ToString None mod_ready_empty_path
                    uuid) w)
         = messages w ++ [mkChatMessage uuid agent (lit "Done") None])
  /\ spec_download_url (BACKEND_URL None) (Some []) =
     lit "http://localhost:5001"
  /\ spec_download_url (BACKEND_URL None) (Some []) <> [].
Proof.
  split; [|split; [reflexivity | discriminate]].
  intros J T w uuid. split; reflexivity.
Qed.

(** C2, counterexample.  On [{node: "", snapshot: ["Plan"]}] rule (2) of the
    claim appends the node, the empty string; the code appends ["Plan"].
    On [{snapshot: ["", "Plan"]}] rule (4) appends the first element, the
    empty string; the code appends ["Working..."]. *)
Lemma onProgress_departs_from_spec_line :
  progressMessages
    (exec (onProgress (encode_progress progress_empty_node)) mounted)
    = [JStr (lit "Plan")]
  /\ spec_progress_line progress_empty_node = []
  /\ progressMessages
       (exec (onProgress (encode_progress progress_empty_node)) mounted)
     <> progressMessages mounted
          ++ [JStr (spec_progress_line progress_empty_node)]
  /\ progressMessages
       (exec (onProgress (encode_progress progress_empty_line)) mounted)
     = [JStr (lit "Working...")]
  /\ spec_progress_line progress_empty_line = []
  /\ progressMessages
       (exec (onProgress (encode_progress progress_empty_line)) mounted)
     <> progressMessages mounted
          ++ [JStr (spec_progress_line progress_empty_line)].
Proof.
  repeat split; try reflexivity; vm_compute; discriminate.
Qed.

(** The part of [onProgress] that runs when [message] does not decide, on
    a typed payload: the node if non-empty, else the line found in the
    snapshot. *)
Lemma onProgress_fallback_typed
    (n : option jsstring) (xs : option (list jsstring)) (w0 : World) :
  let lines := match xs with Some l => l | None => [] end in
  let from_snapshot :=
    match List.find (fun l => startsWith l (lit "node:")) lines with
    | Some l => l
    | None => match lines with
              | l :: _ => if nonempty l then l else lit "Working..."
              | [] => lit "Working..."
              end
    end in
  (readable <-
     (if is_truthy (match n with Some s => JStr s | None => JUndefined end)
      then ret (match n with Some s => JStr s | None => JUndefined end)
      else
        found <- find (fun l => call_startsWith l (lit "node:"))
                   (map JStr lines) ;;
        ret (js_or (js_or found (nth 0 (map JStr lines) JUndefined))
                   (JStr (lit "Working...")))) ;;
   setProgressMessages (fun prev => prev ++ [readable])) w0 =
  (Returned tt,
   mkWorld (socketRef w0) (wire w0) (connected w0) (stage w0) (runId w0)
     (progressMessages w0 ++
        [JStr (match n with
               | Some s => if nonempty s then s else from_snapshot
               | None => from_snapshot
               end)])
     (messages w0) (summary w0) (downloadUrl w0) (error w0)
     (awaitingUser w0)).
Proof.
  intros lines from_snapshot.
  assert (Hsnap :
    (found <- find (fun l => call_startsWith l (lit "node:"))
                (map JStr lines) ;;
     ret (js_or (js_or found (nth 0 (map JStr lines) JUndefined))
                (JStr (lit "Working...")))) w0 =
    (Returned (JStr from_snapshot), w0)).
  { unfold bind. rewrite find_strings. unfold ret, from_snapshot.
    destruct (List.find (fun l => startsWith l (lit "node:")) lines)
      as [l|] eqn:E.
    - apply find_some_startsWith in E.
      apply startsWith_nonempty in E; [|discriminate].
      unfold js_or. cbn [is_truthy]. rewrite E. cbn [is_truthy].
      rewrite E. reflexivity.
    - destruct lines as [|l ls]; [reflexivity|].
      unfold js_or. cbn [map nth is_truthy]. destruct l; reflexivity. }
  destruct n as [[|c s]|]; cbn [is_truthy nonempty].
  - unfold bind at 1. rewrite Hsnap. reflexivity.
  - reflexivity.
  - unfold bind at 1. rewrite Hsnap. reflexivity.
Qed.

Lemma strings_of_map (xs : list value) :
  Forall (fun x => exists s, x = JStr s) xs -> xs = map JStr (strings_of xs).
Proof.
  induction 1 as [|x xs [s ->] _ IH]; [reflexivity|].
  cbn [strings_of map]. rewrite <- IH. reflexivity.
Qed.

(** C2 (as amended).  For every [progress] event whose [snapshot], when it
    is an array, holds only strings (so for every payload with the
    protocol's types, whatever other keys it has and in whatever order; a
    [message] or a [node] that is not a string counts as absent), the
    handler returns normally, [awaitingUser] becomes [false] and exactly
    one line is appended to the progress log: (1) [message] if it is
    non-empty after trimming; (2) [node] if it is present and non-empty;
    (3) the first element of [snapshot] that starts with ["node:"]; (4) the
    first element of [snapshot] if it is non-empty; (5) ["Working..."].
    Nothing else changes. *)
Theorem onProgress_typed (w : World) (payload : value) :
  snapshot_of_strings payload ->
  onProgress payload w =
  (Returned tt,
   {| socketRef := socketRef w;
      wire := wire w;
      connected := connected w;
      stage := stage w;
      runId := runId w;
      progressMessages :=
        progressMessages w ++ [JStr (progress_line (view_progress payload))];
      messages := messages w;
      summary := summary w;
      downloadUrl := downloadUrl w;
      error := error w;
      awaitingUser := false |}).
Proof.
  intros Hsnap.
  assert (Hn :
    match get payload "node" with JStr n => JStr n | _ => JUndefined end =
    match pp_node (view_progress payload) with
    | Some s => JStr s
    | None => JUndefined
    end).
  { cbn [view_progress pp_node]. destruct (get payload "node"); reflexivity. }
  assert (Hl :
    match get payload "snapshot" with JArr xs => xs | _ => [] end =
    map JStr (match pp_snapshot (view_progress payload) with
              | Some l => l
              | None => []
              end)).
  { cbn [view_progress pp_snapshot]. unfold snapshot_of_strings in Hsnap.
    destruct (get payload "snapshot"); try reflexivity.
    apply strings_of_map, Hsnap. }
  unfold onProgress. unfold bind at 1. cbn [setAwaitingUser]. cbv zeta.
  rewrite Hn, Hl.
  pose proof (onProgress_fallback_typed
                (pp_node (view_progress payload))
                (pp_snapshot (view_progress payload))
                (mkWorld (socketRef w) (wire w) (connected w) (stage w)
                   (runId w) (progressMessages w) (messages w) (summary w)
                   (downloadUrl w) (error w) false)) as Hfb.
  cbv zeta in Hfb.
  unfold progress_line.
  assert (Hm : pp_message (view_progress payload) =
               match get payload "message" with
               | JStr m => Some m
               | _ => None
               end) by reflexivity.
  rewrite Hm.
  destruct (get payload "message") as [| | | | m | |]; try exact Hfb.
  destruct (nonempty (trim m)) eqn:Et.
  - rewrite (nonempty_trim _ Et). reflexivity.
  - rewrite andb_false_r. exact Hfb.
Qed.

(** C2, an instance: a typed payload with an extra key and the keys in
    another order. *)
Lemma onProgress_typed_witness :
  snapshot_of_strings
    (JObj [("snapshot", JArr [JStr (lit "step 1"); JStr (lit "node: Plan")]);
           ("run_id", JStr (lit "run-a"));
           ("node", JStr [])]) /\
  onProgress
    (JObj [("snapshot", JArr [JStr (lit "step 1"); JStr (lit "node: Plan")]);
           ("run_id", JStr (lit "run-a"));
           ("node", JStr [])]) mounted =
  (Returned tt,
   {| socketRef := true;
      wire := [];
      connected := false;
      stage := prompt;
      runId := JNull;
      progressMessages := [JStr (lit "node: Plan")];
      messages := [];
      summary := [];
      downloadUrl := [];
      error := None;
      awaitingUser := false |}).
Proof.
  split.
  - cbn. repeat constructor; eexists; reflexivity.
  - apply (onProgress_typed mounted
             (JObj [("snapshot",
                     JArr [JStr (lit "step 1"); JStr (lit "node: Plan")]);
                    ("run_id", JStr (lit "run-a"));
                    ("node", JStr [])])).
    cbn. repeat constructor; eexists; reflexivity.
Defined.

(** On any payload whatever, [onProgress] either returns after appending
    exactly one line, which is a string, or throws [TypeError] after
    appending none; [awaitingUser] is [false] in both cases. *)
Lemma onProgress_outcome (payload : value) (w : World) :
  (exists line : jsstring,
      onProgress payload w = (Returned tt, with_line (JStr line) (busy w)))
  \/ onProgress payload w = (Thrown TypeError, busy w).
Proof.
  unfold onProgress. unfold bind at 1.
  change (setAwaitingUser false w) with (Returned tt, busy w).
  cbv beta iota zeta.
  set (w1 := busy w).
  assert (Hfb :
    (exists line : jsstring,
      (readable <-
         (if is_truthy (match get payload "node" with
                        | JStr n => JStr n
                        | _ => JUndefined
                        end)
          then ret (match get payload "node" with
                    | JStr n => JStr n
                    | _ => JUndefined
                    end)
          else
            found <- find (fun l => call_startsWith l (lit "node:"))
                       (match get payload "snapshot" with
                        | JArr xs => xs
                        | _ => []
                        end) ;;
            ret (js_or (js_or found
                          (nth 0 (match get payload "snapshot" with
                                  | JArr xs => xs
                                  | _ => []
                                  end) JUndefined))
                       (JStr (lit "Working...")))) ;;
       setProgressMessages (fun prev => prev ++ [readable])) w1 =
      (Returned tt, with_line (JStr line) w1))
    \/ (readable <-
         (if is_truthy (match get payload "node" with
                        | JStr n => JStr n
                        | _ => JUndefined
                        end)
          then ret (match get payload "node" with
                    | JStr n => JStr n
                    | _ => JUndefined
                    end)
          else
            found <- find (fun l => call_startsWith l (lit "node:"))
                       (match get payload "snapshot" with
                        | JArr xs => xs
                        | _ => []
                        end) ;;
            ret (js_or (js_or found
                          (nth 0 (match get payload "snapshot" with
                                  | JArr xs => xs
                                  | _ => []
                                  end) JUndefined))
                       (JStr (lit "Working...")))) ;;
       setProgressMessages (fun prev => prev ++ [readable])) w1 =
      (Thrown TypeError, w1)).
  { set (lines := match get payload "snapshot" with
                  | JArr xs => xs
                  | _ => []
                  end).
    set (nodeLine := match get payload "node" with
                     | JStr n => JStr n
                     | _ => JUndefined
                     end).
    assert (Hnode : is_truthy nodeLine = false
                    \/ exists n, nodeLine = JStr n /\ is_truthy nodeLine = true).
    { unfold nodeLine. destruct (get payload "node") as [| | | | n | |];
        try (left; reflexivity).
      destruct n as [|c n]; [left; reflexivity|].
      right. exists (c :: n). split; reflexivity. }
    destruct Hnode as [Hn | [n [Hn Ht]]].
    2:{ left. exists n. rewrite Ht, Hn. reflexivity. }
    rewrite Hn. cbv beta iota delta [bind].
    pose proof (find_world (lit "node:") lines w1) as Hw.
    pose proof (find_returned (lit "node:") lines w1) as Hr.
    destruct (find (fun l => call_startsWith l (lit "node:")) lines w1)
      as [[v | e] w2]; cbn [fst snd] in Hw, Hr; subst w2.
    - left. destruct (Hr v eq_refl) as [[s [-> Hs]] | [-> Hall]].
      + exists s. apply startsWith_nonempty in Hs; [|discriminate].
        unfold ret, js_or. cbn [is_truthy]. rewrite Hs. cbn [is_truthy].
        rewrite Hs. reflexivity.
      + destruct Hall as [|x rest [s ->] _].
        * exists (lit "Working..."). reflexivity.
        * destruct s as [|c s].
          -- exists (lit "Working..."). reflexivity.
          -- exists (c :: s). reflexivity.
    - right. destruct e. reflexivity. }
  destruct (get payload "message") as [| | | | m | |]; try exact Hfb.
  destruct (nonempty m && nonempty (trim m)); [|exact Hfb].
  left. exists m. reflexivity.
Qed.

(** C7, the failing input.  On [{snapshot: [1]}] the [find] callback calls
    [startsWith] on the number: the handler throws [TypeError] after it has
    set [awaitingUser] to [false], and no line is appended. *)
Theorem onProgress_throws_on_number_line (w : World) :
  onProgress progress_number_line w =
  (Thrown TypeError,
   {| socketRef := socketRef w;
      wire := wire w;
      connected := connected w;
      stage := stage w;
      runId := runId w;
      progressMessages := progressMessages w;
      messages := messages w;
      summary := summary w;
      downloadUrl := downloadUrl w;
      error := error w;
      awaitingUser := false |}).
Proof. reflexivity. Qed.

(** ** The sample events of the spec *)

Example progress_with_message (w : World) :
  progressMessages
    (exec (onProgress (JObj [("message", JStr (lit "Generating code"))])) w)
  = progressMessages w ++ [JStr (lit "Generating code")].
Proof. destruct w. reflexivity. Qed.

Example progress_with_snapshot (w : World) :
  progressMessages
    (exec (onProgress
             (JObj [("snapshot",
                     JArr [JStr (lit "node: Plan"); JStr (lit "other")])])) w)
  = progressMessages w ++ [JStr (lit "node: Plan")].
Proof. destruct w. reflexivity. Qed.

Example progress_with_nothing (w : World) :
  progressMessages (exec (onProgress (JObj [])) w)
  = progressMessages w ++ [JStr (lit "Working...")].
Proof. destruct w. reflexivity. Qed.

Example chat_response_all_set
    (JSON_stringify : value -> jsstring) (w : World) (uuid : jsstring) :
  let w' :=
    exec (onChatResponse JSON_stringify
            (JObj [("message", JStr (lit "All set"))]) uuid) w in
  messages w' = messages w ++ [mkChatMessage uuid agent (lit "All set") None]
  /\ awaitingUser w' = true.
Proof. destruct w. split; reflexivity. Qed.

(** A [download_url] that is an object with an own, non-callable
    [toString]: on a host whose conversion of it throws, the handler throws
    with the summary stored and the stage untouched. *)
Example mod_ready_unconvertible_path
    (JSON_stringify : value -> jsstring)
    (ToString : value -> option jsstring)
    (VITE_BACKEND_URL : option jsstring) (w : World) (uuid : jsstring) :
  ToString (JObj [("toString", JNum 0)]) = None ->
  onModReady JSON_stringify ToString VITE_BACKEND_URL
    (JObj [("summary", JStr (lit "S"));
           ("download_url", JObj [("toString", JNum 0)])]) uuid w =
  (Thrown TypeError,
   mkWorld (socketRef w) (wire w) (connected w) (stage w) (runId w)
     (progressMessages w) (messages w) (lit "S") (downloadUrl w) (error w)
     (awaitingUser w)).
Proof.
  intros HT. rewrite onModReady_outcome. cbv zeta.
  cbn [get lookup String.eqb Ascii.eqb Bool.eqb is_truthy converted].
  rewrite HT. reflexivity.
Qed.

Example sendChat_before_run_started :
  let w' := exec (sendChat (runId mounted) (lit "hello") (lit "id-1"))
               mounted in
  messages w' = [mkChatMessage (lit "id-1") user (lit "hello") None]
  /\ wire w' = [].
Proof. split; reflexivity. Qed.

(** Once the cleanup has cleared [socketRef], [startRun] still updates the
    cells but emits nothing: the emission of C1 needs the mounted
    controller. *)
Lemma startRun_after_cleanup_emits_nothing
    (w : World) (P : jsstring) (mcVersion author : option jsstring)
    (uuid : jsstring) :
  wire (exec (startRun P mcVersion author uuid) (exec cleanup w)) = wire w.
Proof.
  unfold startRun. destruct (nonempty (trim P)); destruct w; reflexivity.
Qed.

(** ** The dispatcher as a whole *)

Section Dispatcher.

Variable JSON_stringify : value -> jsstring.
Variable ToString : value -> option jsstring.
Variable VITE_BACKEND_URL : option jsstring.

Local Abbreviation step' := (step JSON_stringify ToString VITE_BACKEND_URL).
Local Abbreviation run' := (run JSON_stringify ToString VITE_BACKEND_URL).

Ltac by_cases_on_step op w :=
  destruct op as [p | p | p | p | p u | p u | p v a u | r m u];
  unfold step', step, exec;
  [ | | | destruct (onProgress_outcome p w) as [[line ->] | ->]
    | rewrite onModReady_outcome; cbv zeta;
      destruct (is_truthy (get p "download_url"));
      [destruct (converted ToString (get p "download_url"))|]
    | unfold onChatResponse; cbv zeta;
      match goal with
      | |- context [if nonempty ?x then _ else _] =>
          destruct (nonempty x) eqn:Hc
      end
    | unfold startRun; destruct (nonempty (trim p)) eqn:Hc
    | unfold sendChat; cbv zeta; destruct (nonempty (trim m)) eqn:Hc ].

Lemma step_socketRef (op : Op) (w : World) :
  socketRef (exec (step' op) w) = socketRef w.
Proof.
  by_cases_on_step op w; destruct w as [sr wi co st ri pm ms su du er au];
    try reflexivity.
  - destruct sr; reflexivity.
  - cbv beta iota zeta delta
      [bind setMessages setProgressMessages setAwaitingUser
       negb snd runId socketRef].
    destruct (is_truthy r); [destruct sr|]; reflexivity.
Qed.

Lemma step_runId (op : Op) (w : World) :
  runId (exec (step' op) w) =
  match op with
  | EvRunStarted p => js_or (get p "run_id") JNull
  | _ => runId w
  end.
Proof.
  by_cases_on_step op w; destruct w as [sr wi co st ri pm ms su du er au];
    try reflexivity.
  - destruct sr; reflexivity.
  - cbv beta iota zeta delta
      [bind setMessages setProgressMessages setAwaitingUser
       negb snd runId socketRef].
    destruct (is_truthy r); [destruct sr|]; reflexivity.
Qed.

Lemma step_wire (op : Op) (w : World) :
  wire (exec (step' op) w) = wire w ++ emitted op w.
Proof.
  by_cases_on_step op w; destruct w as [sr wi co st ri pm ms su du er au];
    cbn [emitted wire socketRef runId]; rewrite ?Hc; cbn [andb];
    try (rewrite app_nil_r; reflexivity).
  - destruct sr; [reflexivity | rewrite app_nil_r; reflexivity].
  - cbv beta iota zeta delta
      [bind setMessages setProgressMessages setAwaitingUser
       negb snd runId socketRef].
    destruct (is_truthy r); [destruct sr|]; cbn [andb];
      try (rewrite app_nil_r); reflexivity.
Qed.

Lemma step_messages (op : Op) (w : World) :
  match op with
  | CallStartRun p v a u =>
      messages (exec (step' op) w) =
      if nonempty (trim p) then [mkChatMessage u user p None]
      else messages w
  | _ =>
      exists tail,
        messages (exec (step' op) w) = messages w ++ tail
        /\ List.length tail <= 1
  end.
Proof.
  by_cases_on_step op w; destruct w as [sr wi co st ri pm ms su du er au];
    try (exists []; rewrite app_nil_r; split; [reflexivity | cbn; lia]);
    try (eexists; split; [reflexivity | cbn; lia]).
  - destruct sr; reflexivity.
  - reflexivity.
  - cbv beta iota zeta delta
      [bind setMessages setProgressMessages setAwaitingUser
       negb snd runId socketRef messages].
    destruct (is_truthy r); [destruct sr|];
      (eexists; split; [reflexivity | cbn; lia]).
Qed.

Lemma emitted_chat_has_runId (op : Op) (w : World) :
  Forall chat_has_runId (emitted op w).
Proof.
  destruct op; cbn [emitted]; try constructor.
  - destruct (nonempty (trim prompt_) && socketRef w); constructor;
      [exact I | constructor].
  - destruct (nonempty (trim message)); cbn [andb]; [|constructor].
    destruct (is_truthy captured) eqn:E; cbn [andb]; [|constructor].
    destruct (socketRef w); constructor; [exact E | constructor].
Qed.

Lemma run_cons (op : Op) (ops : list Op) (w : World) :
  run' (op :: ops) w = run' ops (exec (step' op) w).
Proof. reflexivity. Qed.

Lemma run_chat_has_runId (ops : list Op) (w : World) :
  Forall chat_has_runId (wire w) ->
  Forall chat_has_runId (wire (run' ops w)).
Proof.
  revert w. induction ops as [|op ops IH]; intros w Hw; [exact Hw|].
  rewrite run_cons. apply IH. rewrite step_wire.
  apply Forall_app. split; [exact Hw | apply emitted_chat_has_runId].
Qed.

Lemma run_socketRef (ops : list Op) (w : World) :
  socketRef (run' ops w) = socketRef w.
Proof.
  revert w. induction ops as [|op ops IH]; intros w; [reflexivity|].
  rewrite run_cons, IH. apply step_socketRef.
Qed.

(** The socket reference is held in every world reached from the mounted
    controller. *)
Lemma run_mounted_socketRef (ops : list Op) :
  socketRef (run' ops mounted) = true.
Proof. rewrite run_socketRef. reflexivity. Qed.

Lemma run_runId (ops : list Op) (w : World) :
  Forall (fun op => is_run_started op = false) ops ->
  runId (run' ops w) = runId w.
Proof.
  revert w. induction ops as [|op ops IH]; intros w H; [reflexivity|].
  inversion H as [|? ? Hop Hops]; subst.
  rewrite run_cons, (IH _ Hops), step_runId.
  destruct op; [reflexivity | reflexivity | discriminate Hop | ..];
    reflexivity.
Qed.

End Dispatcher.

(** C4, counterexample.  After [startRun] and [run_started {run_id:
    "run-a"}] the run's [runId] is ["run-a"]; a second [run_started
    {run_id: "run-b"}] in the same run (no [startRun] in between)
    overwrites it with ["run-b"].  And a [chat] event is emitted while
    [runId] is unset: on the page, after [run_started {run_id: "run-a"}],
    [mod_ready] and a [run_started] without id, the cell is [null], the
    composer's callback is the one built when the cell held ["run-a"], and
    its submission emits [chat {run_id: "run-a"}]. *)
Lemma run_started_overwrites_runId :
  runId after_run_started_a = JStr (lit "run-a")
  /\ runId after_run_started_b = JStr (lit "run-b")
  /\ runId after_run_started_b <> runId after_run_started_a
  /\ runId (hook page_stale) = JNull
  /\ wire (hook (page_step (fun _ => []) (fun _ => None) None
                   (SubmitChat (JStr (lit "run-a")) (lit "id-3")) page_stale))
     = wire (hook page_stale) ++
       [mkEmit "chat"
          (JObj [("run_id", JStr (lit "run-a"));
                 ("message", JStr (lit "more gold"))])].
Proof.
  split; [reflexivity|]. split; [reflexivity|].
  split; [vm_compute; discriminate|].
  split; vm_compute; reflexivity.
Qed.

(** C4 (as amended).  Only a [run_started] event changes [runId]: it
    stores the payload's [run_id], or [null] when that is absent or falsy,
    over whatever the cell held; every other event and both intents leave
    [runId] as it is.  A [chat] event is emitted only by a [sendChat]
    callback whose captured [runId] is truthy, and it carries that captured
    [runId] (the cell's value for the callback of the latest render; an
    older callback keeps the value it was built with); no other operation
    emits a [chat] event.  Hence on every trace from the mounted
    controller, whichever callbacks are called, each emitted [chat] event
    carries a truthy [run_id]. *)
Theorem runId_discipline
    (JSON_stringify : value -> jsstring)
    (ToString : value -> option jsstring)
    (VITE_BACKEND_URL : option jsstring)
    (op : Op) (w : World) (ops : list Op) :
  runId (exec (step JSON_stringify ToString VITE_BACKEND_URL op) w) =
    match op with
    | EvRunStarted p => js_or (get p "run_id") JNull
    | _ => runId w
    end
  /\ wire (exec (step JSON_stringify ToString VITE_BACKEND_URL op) w) =
       wire w ++ emitted op w
  /\ match op with
     | CallSendChat r m _ =>
         emitted op w = []
         \/ (is_truthy r = true
             /\ emitted op w =
                [mkEmit "chat"
                   (JObj [("run_id", r); ("message", JStr (trim m))])])
     | _ =>
         Forall (fun e => String.eqb (ev_name e) "chat" = false)
           (emitted op w)
     end
  /\ Forall chat_has_runId
       (wire (run JSON_stringify ToString VITE_BACKEND_URL ops mounted)).
Proof.
  split; [apply step_runId|]. split; [apply step_wire|]. split.
  - destruct op as [p | p | p | p | p u | p u | p v a u | r m u];
      cbn [emitted]; try (constructor; fail).
    + destruct (nonempty (trim p) && socketRef w); constructor;
        [reflexivity | constructor].
    + destruct (nonempty (trim m)); cbn [andb]; [|left; reflexivity].
      destruct (is_truthy r) eqn:E; cbn [andb]; [|left; reflexivity].
      destruct (socketRef w); [right | left; reflexivity].
      split; reflexivity.
  - apply run_chat_has_runId. constructor.
Qed.

(** C6, counterexample.  The message created by a first [startRun] is in
    the log; a second [startRun] replaces the log, and that message is no
    longer in it. *)
Lemma startRun_drops_earlier_messages :
  messages after_startRun =
    [mkChatMessage (lit "id-1") user (lit "make a sword") None]
  /\ messages after_second_startRun =
       [mkChatMessage (lit "id-2") user (lit "make a bow") None]
  /\ ~ In (mkChatMessage (lit "id-1") user (lit "make a sword") None)
          (messages after_second_startRun).
Proof.
  split; [reflexivity|]. split; [reflexivity|].
  intros H. vm_compute in H. destruct H as [H | []]. discriminate H.
Qed.

(** C6 (as amended).  Every inbound event handler and [sendChat] only
    append to the message log: the log before the operation is a prefix of
    the log after it, extended by at most one message.  [startRun] with a
    prompt that does not trim to empty replaces the log with the single new
    user message; with a blank prompt it leaves the log as it is. *)
Theorem messages_append_only_except_startRun
    (JSON_stringify : value -> jsstring)
    (ToString : value -> option jsstring)
    (VITE_BACKEND_URL : option jsstring)
    (op : Op) (w : World) :
  match op with
  | CallStartRun p v a u =>
      messages (exec (step JSON_stringify ToString VITE_BACKEND_URL op) w) =
      if nonempty (trim p) then [mkChatMessage u user p None]
      else messages w
  | _ =>
      exists tail,
        messages (exec (step JSON_stringify ToString VITE_BACKEND_URL op) w)
        = messages w ++ tail
        /\ List.length tail <= 1
  end.
Proof. apply step_messages. Qed.

(** C10.  [startRun] with a non-blank prompt resets the progress log, the
    summary, the download URL, the message log, the error, [stage] and
    [awaitingUser], and leaves [runId] as it was.  So when the previous
    run's [runId] is set and a second [startRun] is followed, before any
    [run_started] event arrives (whatever else happens in between), by a
    [sendChat] with a non-blank message (the callback of the render it is
    issued from, which holds the cell's [runId]), that call emits one
    [chat] event carrying the previous run's [run_id]. *)
Theorem startRun_keeps_runId
    (JSON_stringify : value -> jsstring)
    (ToString : value -> option jsstring)
    (VITE_BACKEND_URL : option jsstring)
    (w : World) (P : jsstring) (mcVersion author : option jsstring)
    (uuid : jsstring) (between : list Op) (msg uuid' : jsstring) :
  trim P <> [] ->
  trim msg <> [] ->
  socketRef w = true ->
  is_truthy (runId w) = true ->
  Forall (fun op => is_run_started op = false) between ->
  let w1 := exec (startRun P mcVersion author uuid) w in
  let w2 := run JSON_stringify ToString VITE_BACKEND_URL between w1 in
  runId w1 = runId w
  /\ progressMessages w1 = []
  /\ summary w1 = []
  /\ downloadUrl w1 = []
  /\ messages w1 = [mkChatMessage uuid user P None]
  /\ error w1 = None
  /\ stage w1 = result
  /\ awaitingUser w1 = false
  /\ wire (exec (sendChat (runId w2) msg uuid') w2) =
     wire w2 ++
     [mkEmit "chat"
        (JObj [("run_id", runId w); ("message", JStr (trim msg))])].
Proof.
  intros HP Hm Hs Hr Hb w1 w2.
  assert (H1 : runId w1 = runId w).
  { exact (step_runId JSON_stringify ToString VITE_BACKEND_URL
             (CallStartRun P mcVersion author uuid) w). }
  assert (Hs1 : socketRef w1 = true).
  { rewrite <- Hs.
    exact (step_socketRef JSON_stringify ToString VITE_BACKEND_URL
             (CallStartRun P mcVersion author uuid) w). }
  assert (H2 : runId w2 = runId w).
  { unfold w2. rewrite run_runId; [exact H1 | exact Hb]. }
  assert (Hs2 : socketRef w2 = true).
  { unfold w2. rewrite run_socketRef. exact Hs1. }
  split; [exact H1|].
  assert (Hw1 : w1 =
    mkWorld true
      (wire w ++
       [mkEmit "start_run"
          (JObj [("prompt", JStr P); ("author", of_option author);
                 ("mc_version", of_option mcVersion)])])
      (connected w) result (runId w) []
      [mkChatMessage uuid user P None] [] [] None false).
  { unfold w1, exec, startRun. rewrite (nonempty_true _ HP).
    destruct w. cbn [socketRef] in Hs. subst. reflexivity. }
  rewrite Hw1. repeat (split; [reflexivity|]).
  pose proof (step_wire JSON_stringify ToString VITE_BACKEND_URL
                (CallSendChat (runId w) msg uuid') w2) as Hwire.
  cbn [step emitted] in Hwire.
  rewrite (nonempty_true _ Hm), Hr, Hs2 in Hwire.
  rewrite H2. exact Hwire.
Qed.

(** C10, an instance: the run ["run-a"] is followed by a second [startRun],
    a [progress] event and a [sendChat]; the serializers of the host are
    not consulted on this trace. *)
Lemma startRun_keeps_runId_witness :
  trim (lit "make a bow") <> [] /\
  trim (lit " any news? ") <> [] /\
  socketRef after_run_started_a = true /\
  is_truthy (runId after_run_started_a) = true /\
  Forall (fun op => is_run_started op = false)
    [EvProgress (JObj [("message", JStr (lit "Planning"))])] /\
  let w1 :=
    exec (startRun (lit "make a bow") None None (lit "id-2"))
      after_run_started_a in
  let w2 :=
    run (fun _ => []) (fun _ => None) None
      [EvProgress (JObj [("message", JStr (lit "Planning"))])] w1 in
  runId w1 = runId after_run_started_a
  /\ progressMessages w1 = []
  /\ summary w1 = []
  /\ downloadUrl w1 = []
  /\ messages w1 = [mkChatMessage (lit "id-2") user (lit "make a bow") None]
  /\ error w1 = None
  /\ stage w1 = result
  /\ awaitingUser w1 = false
  /\ wire (exec (sendChat (runId w2) (lit " any news? ") (lit "id-3")) w2) =
     wire w2 ++
     [mkEmit "chat"
        (JObj [("run_id", runId after_run_started_a);
               ("message", JStr (trim (lit " any news? ")))])].
Proof.
  split; [vm_compute; discriminate|].
  split; [vm_compute; discriminate|].
  split; [reflexivity|].
  split; [reflexivity|].
  split; [repeat constructor|].
  apply (startRun_keeps_runId (fun _ => []) (fun _ => None) None
           after_run_started_a (lit "make a bow") None None (lit "id-2")
           [EvProgress (JObj [("message", JStr (lit "Planning"))])]
           (lit " any news? ") (lit "id-3"));
    [vm_compute; discriminate | vm_compute; discriminate
     | reflexivity | reflexivity | repeat constructor].
Defined.

(** ** Trimming *)

Lemma trimStart_head (s : jsstring) :
  trimStart s = []
  \/ exists c r, trimStart s = c :: r /\ isWhiteSpace c = false.
Proof.
  induction s as [|c s IH]; [left; reflexivity|].
  cbn [trimStart]. destruct (isWhiteSpace c) eqn:E; [exact IH|].
  right. exists c, s. split; [reflexivity | exact E].
Qed.

Lemma trimStart_idem (s : jsstring) : trimStart (trimStart s) = trimStart s.
Proof.
  destruct (trimStart_head s) as [-> | [c [r [-> E]]]]; [reflexivity|].
  cbn [trimStart]. rewrite E. reflexivity.
Qed.

Lemma trimStart_snoc (l : jsstring) (c : char16) :
  isWhiteSpace c = false -> exists l', trimStart (l ++ [c]) = l' ++ [c].
Proof.
  intros E. induction l as [|x l IH]; cbn [app trimStart].
  - rewrite E. exists []. reflexivity.
  - destruct (isWhiteSpace x); [exact IH|]. exists (x :: l). reflexivity.
Qed.

Lemma trimEnd_cons (c : char16) (r : jsstring) :
  isWhiteSpace c = false -> exists r', trimEnd (c :: r) = c :: r'.
Proof.
  intros E. unfold trimEnd. cbn [rev].
  destruct (trimStart_snoc (rev r) c E) as [l' ->].
  exists (rev l'). rewrite rev_app_distr. reflexivity.
Qed.

Lemma trimEnd_idem (s : jsstring) : trimEnd (trimEnd s) = trimEnd s.
Proof. unfold trimEnd. rewrite rev_involutive, trimStart_idem. reflexivity. Qed.

(** Trimming twice is trimming once. *)
Lemma trim_idempotent (s : jsstring) : trim (trim s) = trim s.
Proof.
  unfold trim.
  destruct (trimStart_head s) as [H | [c [r [H E]]]]; rewrite H;
    [reflexivity|].
  destruct (trimEnd_cons c r E) as [r' Hr].
  rewrite Hr. cbn [trimStart]. rewrite E.
  rewrite <- Hr. apply trimEnd_idem.
Qed.

Lemma trim_blank (s : jsstring) : trim s = [] -> trim (trim s) = [].
Proof. intros H. rewrite trim_idempotent. exact H. Qed.

(** ** The progress handler on any payload *)

(** [onProgress] either returns after appending one line that is a
    non-empty string, or throws after appending none. *)
Lemma onProgress_line (payload : value) (w : World) :
  (exists line : jsstring,
      line <> []
      /\ onProgress payload w = (Returned tt, with_line (JStr line) (busy w)))
  \/ onProgress payload w = (Thrown TypeError, busy w).
Proof.
  unfold onProgress. unfold bind at 1.
  change (setAwaitingUser false w) with (Returned tt, busy w).
  cbv beta iota zeta.
  set (w1 := busy w).
  set (lines := match get payload "snapshot" with
                | JArr xs => xs
                | _ => []
                end).
  set (nodeLine := match get payload "node" with
                   | JStr n => JStr n
                   | _ => JUndefined
                   end).
  set (fallback :=
    readable <-
      (if is_truthy nodeLine then ret nodeLine
       else
         found <- find (fun l => call_startsWith l (lit "node:")) lines ;;
         ret (js_or (js_or found (nth 0 lines JUndefined))
                    (JStr (lit "Working...")))) ;;
    setProgressMessages (fun prev => prev ++ [readable])).
  assert (Hfb :
    (exists line : jsstring,
        line <> [] /\ fallback w1 = (Returned tt, with_line (JStr line) w1))
    \/ fallback w1 = (Thrown TypeError, w1)).
  { unfold fallback.
    assert (Hnode : is_truthy nodeLine = false
                    \/ exists n, nodeLine = JStr n /\ n <> []
                                 /\ is_truthy nodeLine = true).
    { unfold nodeLine. destruct (get payload "node") as [| | | | n | |];
        try (left; reflexivity).
      destruct n as [|c n]; [left; reflexivity|].
      right. exists (c :: n). repeat split. discriminate. }
    destruct Hnode as [Hn | [n [Hn [Hne Ht]]]].
    2:{ left. exists n. split; [exact Hne|]. rewrite Ht, Hn. reflexivity. }
    rewrite Hn. cbv beta iota delta [bind].
    pose proof (find_world (lit "node:") lines w1) as Hw.
    pose proof (find_returned (lit "node:") lines w1) as Hr.
    destruct (find (fun l => call_startsWith l (lit "node:")) lines w1)
      as [[v | e] w2]; cbn [fst snd] in Hw, Hr; subst w2.
    - left. destruct (Hr v eq_refl) as [[s [-> Hs]] | [-> Hall]].
      + exists s. apply startsWith_nonempty in Hs; [|discriminate].
        split; [destruct s; [discriminate Hs | discriminate]|].
        unfold ret, js_or. cbn [is_truthy]. rewrite Hs. cbn [is_truthy].
        rewrite Hs. reflexivity.
      + destruct Hall as [|x rest [s ->] _].
        * exists (lit "Working..."). split; [discriminate | reflexivity].
        * destruct s as [|c s].
          -- exists (lit "Working..."). split; [discriminate | reflexivity].
          -- exists (c :: s). split; [discriminate | reflexivity].
    - right. destruct e. reflexivity. }
  destruct (get payload "message") as [| | | | m | |]; try exact Hfb.
  destruct (nonempty m && nonempty (trim m)) eqn:E; [|exact Hfb].
  left. exists m. split; [|reflexivity].
  destruct m; [discriminate E | discriminate].
Qed.

(** ** The world after one operation *)

Section Shape.

Variable JSON_stringify : value -> jsstring.
Variable ToString : value -> option jsstring.
Variable VITE_BACKEND_URL : option jsstring.

Local Abbreviation step1 := (step JSON_stringify ToString VITE_BACKEND_URL).
Local Abbreviation run1 := (run JSON_stringify ToString VITE_BACKEND_URL).
Local Abbreviation base := (BACKEND_URL VITE_BACKEND_URL).

(** Every operation, cell by cell. *)
Lemma step_shape (op : Op) (w : World) :
  match op with
  | EvConnected _ =>
      exec (step1 op) w =
      mkWorld (socketRef w) (wire w) true (stage w) (runId w)
        (progressMessages w) (messages w) (summary w) (downloadUrl w)
        (error w) (awaitingUser w)
  | EvError _ =>
      exists e : jsstring,
        exec (step1 op) w =
        mkWorld (socketRef w) (wire w) (connected w) (stage w) (runId w)
          (progressMessages w) (messages w) (summary w) (downloadUrl w)
          (Some e) (awaitingUser w)
  | EvRunStarted p =>
      exec (step1 op) w =
      mkWorld (socketRef w) (wire w) (connected w) (stage w)
        (js_or (get p "run_id") JNull)
        (progressMessages w) (messages w) (summary w) (downloadUrl w)
        (error w) (awaitingUser w)
  | EvProgress _ =>
      (exists line : jsstring,
          line <> []
          /\ step1 op w =
             (Returned tt,
              mkWorld (socketRef w) (wire w) (connected w) (stage w)
                (runId w) (progressMessages w ++ [JStr line]) (messages w)
                (summary w) (downloadUrl w) (error w) false))
      \/ step1 op w =
         (Thrown TypeError,
          mkWorld (socketRef w) (wire w) (connected w) (stage w) (runId w)
            (progressMessages w) (messages w) (summary w) (downloadUrl w)
            (error w) false)
  | EvModReady p u =>
      if mod_ready_throws ToString p
      then
        exists t : jsstring,
          step1 op w =
          (Thrown TypeError,
           mkWorld (socketRef w) (wire w) (connected w) (stage w) (runId w)
             (progressMessages w) (messages w) t (downloadUrl w) (error w)
             (awaitingUser w))
      else
        exists (t : jsstring) (link : option jsstring),
          match link with
          | Some l => l <> [] /\ begins_with base l
          | None => True
          end
          /\ step1 op w =
             (Returned tt,
              mkWorld (socketRef w) (wire w) (connected w) result (runId w)
                (progressMessages w)
                (messages w ++ [mkChatMessage u agent t link])
                t (match link with Some l => l | None => [] end) (error w)
                true)
  | EvChatResponse _ u =>
      (exists t : jsstring,
          t <> []
          /\ exec (step1 op) w =
             mkWorld (socketRef w) (wire w) (connected w) (stage w) (runId w)
               (progressMessages w)
               (messages w ++ [mkChatMessage u agent t None])
               (summary w) (downloadUrl w) (error w) true)
      \/ exec (step1 op) w =
         mkWorld (socketRef w) (wire w) (connected w) (stage w) (runId w)
           (progressMessages w) (messages w) (summary w) (downloadUrl w)
           (error w) true
  | CallStartRun p _ _ u =>
      if nonempty (trim p)
      then exec (step1 op) w =
           mkWorld (socketRef w) (wire w ++ emitted op w) (connected w)
             result (runId w) [] [mkChatMessage u user p None] [] [] None
             false
      else exec (step1 op) w = w
  | CallSendChat _ m u =>
      if nonempty (trim m)
      then exec (step1 op) w =
           mkWorld (socketRef w) (wire w ++ emitted op w) (connected w)
             (stage w) (runId w) []
             (messages w ++ [mkChatMessage u user (trim m) None])
             (summary w) (downloadUrl w) (error w) false
      else exec (step1 op) w = w
  end.
Proof.
  destruct op as [p | p | p | p | p u | p u | p v a u | r m u].
  - destruct w; reflexivity.
  - eexists. destruct w; reflexivity.
  - destruct w; reflexivity.
  - cbn [step].
    destruct (onProgress_line p w) as [[line [Hne ->]] | ->];
      [left; exists line; split; [exact Hne|] | right];
      destruct w; reflexivity.
  - cbn [step]. rewrite onModReady_outcome. cbv zeta.
    unfold mod_ready_throws.
    assert (Hl : forall t, base ++ t <> [] /\ begins_with base (base ++ t)).
    { intros t. split; [|exists t; reflexivity].
      pose proof (BACKEND_URL_nonempty VITE_BACKEND_URL) as H.
      destruct base; [discriminate H | discriminate]. }
    destruct (is_truthy (get p "download_url")); cbn [andb].
    + destruct (converted ToString (get p "download_url")) as [t|].
      * eexists. exists (Some (base ++ t)). split; [apply Hl | reflexivity].
      * eexists. reflexivity.
    + eexists. exists None. split; [exact I | reflexivity].
  - cbn [step]. unfold exec, onChatResponse, appendAgent.
    destruct (get p "message") as [| | | | [|c t] | |];
      try (right; destruct w; reflexivity).
    left. exists (c :: t). split; [discriminate|]. destruct w; reflexivity.
  - cbn [step emitted]. unfold exec, startRun.
    destruct (nonempty (trim p)); [|reflexivity].
    destruct w as [sr wi co st ri pm ms su du er au].
    destruct sr; cbn [andb socketRef wire]; [|rewrite app_nil_r]; reflexivity.
  - cbn [step emitted]. unfold exec, sendChat. cbv zeta.
    destruct (nonempty (trim m)); [|reflexivity].
    destruct w as [sr wi co st ri pm ms su du er au].
    cbv beta iota zeta delta
      [bind setMessages setProgressMessages setAwaitingUser
       negb snd runId socketRef wire andb].
    destruct (is_truthy r); [destruct sr|]; cbn [andb];
      try rewrite app_nil_r; reflexivity.
Qed.

End Shape.

(** ** Invariants of the hook over traces *)

Section Traces.

Variable JSON_stringify : value -> jsstring.
Variable ToString : value -> option jsstring.
Variable VITE_BACKEND_URL : option jsstring.

Local Abbreviation step1 := (step JSON_stringify ToString VITE_BACKEND_URL).
Local Abbreviation run1 := (run JSON_stringify ToString VITE_BACKEND_URL).
Local Abbreviation base := (BACKEND_URL VITE_BACKEND_URL).

Lemma run1_cons (op : Op) (ops : list Op) (w : World) :
  run1 (op :: ops) w = run1 ops (exec (step1 op) w).
Proof. reflexivity. Qed.

Lemma run_invariant (P : World -> Prop) :
  (forall op w, P w -> P (exec (step1 op) w)) ->
  forall ops w, P w -> P (run1 ops w).
Proof.
  intros Hstep ops. induction ops as [|op ops IH]; intros w Hw; [exact Hw|].
  rewrite run1_cons. apply IH, Hstep, Hw.
Qed.

(** Splits on the operation and rewrites with the world it leaves. *)
Ltac shape op w :=
  let H := fresh "Hshape" in
  pose proof (step_shape JSON_stringify ToString VITE_BACKEND_URL op w) as H;
  destruct op as [p | p | p | p | p u | p u | p v a u | r m u];
  cbn beta iota in H;
  [ rewrite H
  | destruct H as [e H]; rewrite H
  | rewrite H
  | unfold exec; destruct H as [[line [Hline H]] | H]; rewrite H
  | unfold exec; destruct (mod_ready_throws ToString p) eqn:Hthrow;
    [ destruct H as [t H] | destruct H as [t [link [Hlink H]]] ]; rewrite H
  | destruct H as [[t [Ht H]] | H]; rewrite H
  | destruct (nonempty (trim p)) eqn:Hblank; rewrite H
  | destruct (nonempty (trim m)) eqn:Hblank; rewrite H ].

Lemma step_progress_lines (op : Op) (w : World) :
  Forall is_line (progressMessages w) ->
  Forall is_line (progressMessages (exec (step1 op) w)).
Proof.
  intros Hw. shape op w; cbn [progressMessages snd]; try exact Hw;
    try constructor.
  apply Forall_app. split; [exact Hw|].
  constructor; [|constructor]. exists line. split; [reflexivity | exact Hline].
Qed.

Lemma step_stage (op : Op) (w : World) :
  stage (exec (step1 op) w) =
  if leaves_prompt ToString op then result else stage w.
Proof.
  shape op w; cbn [stage snd leaves_prompt]; rewrite ?Hblank, ?Hthrow;
    reflexivity.
Qed.

Lemma step_connected (op : Op) (w : World) :
  connected (exec (step1 op) w) = is_connected op || connected w.
Proof. shape op w; reflexivity. Qed.

Lemma step_error_kept (op : Op) (w : World) :
  clears_error op = false -> error w <> None ->
  error (exec (step1 op) w) <> None.
Proof.
  intros Hc Hw. shape op w; cbn [error snd]; try exact Hw; try discriminate.
  cbn [clears_error] in Hc. congruence.
Qed.

Lemma step_runId_set (op : Op) (w : World) :
  runId w = JNull \/ is_truthy (runId w) = true ->
  runId (exec (step1 op) w) = JNull
  \/ is_truthy (runId (exec (step1 op) w)) = true.
Proof.
  intros Hw. shape op w; cbn [runId snd]; try exact Hw.
  unfold js_or. destruct (is_truthy (get p "run_id")) eqn:E;
    [right; exact E | left; reflexivity].
Qed.

Lemma step_messages_well_formed (op : Op) (w : World) :
  Forall (well_formed_message base) (messages w) ->
  Forall (well_formed_message base) (messages (exec (step1 op) w)).
Proof.
  intros Hw. shape op w; cbn [messages snd]; try exact Hw;
    try (apply Forall_app; split; [exact Hw|]);
    (constructor; [|constructor]); unfold well_formed_message;
    cbn [role text msgDownloadUrl].
  - exact Hlink.
  - exact I.
  - split; [|reflexivity]. intros E. rewrite E in Hblank. discriminate.
  - split; [|reflexivity]. rewrite trim_idempotent.
    intros E. rewrite E in Hblank. discriminate.
Qed.

Lemma step_wire_closed (op : Op) (w : World) :
  socketRef w = false ->
  socketRef (exec (step1 op) w) = false /\ wire (exec (step1 op) w) = wire w.
Proof.
  intros Hs. shape op w; cbn [socketRef wire snd emitted];
    rewrite ?Hs, ?andb_false_r, ?app_nil_r; split; reflexivity || exact Hs.
Qed.

Lemma emitted_bound (op : Op) (w : World) :
  List.length (emitted op w) <= (if is_intent op then 1 else 0)
  /\ Forall outbound_name (emitted op w).
Proof.
  destruct op; cbn [emitted is_intent]; try (split; [cbn; lia | constructor]).
  - destruct (nonempty (trim prompt_) && socketRef w);
      (split; [cbn; lia|]); constructor; [left; reflexivity | constructor].
  - destruct (nonempty (trim message) && is_truthy captured && socketRef w);
      (split; [cbn; lia|]); constructor; [right; reflexivity | constructor].
Qed.

Lemma step_awaitingUser (op : Op) (w : World) :
  awaitingUser (exec (step1 op) w) = true ->
  is_ready op = true \/ awaitingUser w = true.
Proof.
  shape op w; cbn [awaitingUser snd is_ready]; intros Hw;
    try (right; exact Hw); try (left; reflexivity); discriminate.
Qed.

End Traces.

(** ** Properties of the hook *)

(** X1.  In every state reached from the mounted controller, whatever the
    payloads of the events were, every entry of the progress log is a
    non-empty string. *)
Theorem progress_log_holds_lines
    (JSON_stringify : value -> jsstring)
    (ToString : value -> option jsstring)
    (VITE_BACKEND_URL : option jsstring) (ops : list Op) :
  Forall is_line
    (progressMessages
       (run JSON_stringify ToString VITE_BACKEND_URL ops mounted)).
Proof.
  apply (run_invariant JSON_stringify ToString VITE_BACKEND_URL
           (fun w => Forall is_line (progressMessages w))).
  - apply step_progress_lines.
  - constructor.
Qed.

(** X2.  The stage after a trace is [result] as soon as the trace holds a
    [startRun] with a non-blank prompt or a [mod_ready] event whose handler
    returns (one whose [download_url] is not a truthy value that fails to
    convert to a string; when it is, the handler throws before it sets the
    stage), and the initial stage otherwise: no operation sets it back to
    [prompt]. *)
Theorem stage_of_trace
    (JSON_stringify : value -> jsstring)
    (ToString : value -> option jsstring)
    (VITE_BACKEND_URL : option jsstring) (ops : list Op) (w : World) :
  stage (run JSON_stringify ToString VITE_BACKEND_URL ops w) =
  if existsb (leaves_prompt ToString) ops then result else stage w.
Proof.
  revert w. induction ops as [|op ops IH]; intros w; [reflexivity|].
  rewrite run1_cons, IH, step_stage. cbn [existsb].
  destruct (leaves_prompt ToString op),
    (existsb (leaves_prompt ToString) ops); reflexivity.
Qed.

(** X3.  [connected] after a trace is [true] exactly when it was [true]
    before or the trace holds a [connected] event: nothing ever sets it
    back to [false]. *)
Theorem connected_of_trace
    (JSON_stringify : value -> jsstring)
    (ToString : value -> option jsstring)
    (VITE_BACKEND_URL : option jsstring) (ops : list Op) (w : World) :
  connected (run JSON_stringify ToString VITE_BACKEND_URL ops w) =
  existsb is_connected ops || connected w.
Proof.
  revert w. induction ops as [|op ops IH]; intros w; [reflexivity|].
  rewrite run1_cons, IH, step_connected. cbn [existsb].
  destruct (is_connected op), (existsb is_connected ops), (connected w);
    reflexivity.
Qed.

(** X4.  A recorded error is cleared by nothing but a [startRun] with a
    non-blank prompt: over a trace without one (events, [sendChat], blank
    [startRun]s) the error stays set. *)
Theorem error_survives
    (JSON_stringify : value -> jsstring)
    (ToString : value -> option jsstring)
    (VITE_BACKEND_URL : option jsstring) (ops : list Op) (w : World) :
  error w <> None ->
  Forall (fun op => clears_error op = false) ops ->
  error (run JSON_stringify ToString VITE_BACKEND_URL ops w) <> None.
Proof.
  revert w. induction ops as [|op ops IH]; intros w Hw Hops; [exact Hw|].
  inversion Hops as [|? ? Hop Hrest]; subst.
  rewrite run1_cons. apply IH; [|exact Hrest].
  apply step_error_kept; assumption.
Qed.

(** X4, an instance: an error followed by progress, a chat turn and a
    blank [startRun]. *)
Lemma error_survives_witness :
  error (exec (onError (JObj [])) mounted) <> None /\
  Forall (fun op => clears_error op = false)
    [EvProgress (JObj []); CallSendChat JNull (lit "retry") (lit "id-1");
     CallStartRun (lit "  ") None None (lit "id-2")] /\
  error
    (run (fun _ => []) (fun _ => None) None
       [EvProgress (JObj []); CallSendChat JNull (lit "retry") (lit "id-1");
        CallStartRun (lit "  ") None None (lit "id-2")]
       (exec (onError (JObj [])) mounted)) <> None.
Proof.
  split; [discriminate|].
  split; [repeat constructor|].
  apply (error_survives (fun _ => []) (fun _ => None) None
           [EvProgress (JObj []); CallSendChat JNull (lit "retry") (lit "id-1");
            CallStartRun (lit "  ") None None (lit "id-2")]
           (exec (onError (JObj [])) mounted));
    [discriminate | repeat constructor].
Defined.

(** X5.  In every state reached from the mounted controller the [runId]
    cell holds [null] or a truthy value: a falsy [run_id] (absent, empty,
    zero, false) is stored as [null]. *)
Theorem runId_null_or_truthy
    (JSON_stringify : value -> jsstring)
    (ToString : value -> option jsstring)
    (VITE_BACKEND_URL : option jsstring) (ops : list Op) :
  runId (run JSON_stringify ToString VITE_BACKEND_URL ops mounted) = JNull
  \/ is_truthy (runId (run JSON_stringify ToString VITE_BACKEND_URL ops
                         mounted)) = true.
Proof.
  apply (run_invariant JSON_stringify ToString VITE_BACKEND_URL
           (fun w => runId w = JNull \/ is_truthy (runId w) = true)).
  - apply step_runId_set.
  - left. reflexivity.
Qed.

(** X6.  In every state reached from the mounted controller, each user
    message of the log has a text that does not trim to empty and no
    download link, and each download link of an agent message is non-empty
    and begins with the backend base URL. *)
Theorem messages_well_formed
    (JSON_stringify : value -> jsstring)
    (ToString : value -> option jsstring)
    (VITE_BACKEND_URL : option jsstring) (ops : list Op) :
  Forall (well_formed_message (BACKEND_URL VITE_BACKEND_URL))
    (messages (run JSON_stringify ToString VITE_BACKEND_URL ops mounted)).
Proof.
  apply (run_invariant JSON_stringify ToString VITE_BACKEND_URL
           (fun w => Forall (well_formed_message
                               (BACKEND_URL VITE_BACKEND_URL))
                       (messages w))).
  - apply step_messages_well_formed.
  - constructor.
Qed.

(** X7.  After the cleanup of the mount effect no operation emits
    anything: over any trace the record of emitted events stays as it
    was. *)
Theorem no_emission_after_cleanup
    (JSON_stringify : value -> jsstring)
    (ToString : value -> option jsstring)
    (VITE_BACKEND_URL : option jsstring) (ops : list Op) (w : World) :
  wire (run JSON_stringify ToString VITE_BACKEND_URL ops (exec cleanup w)) =
  wire w.
Proof.
  assert (H : forall ops w0, socketRef w0 = false ->
            wire (run JSON_stringify ToString VITE_BACKEND_URL ops w0) =
            wire w0).
  { clear. intros ops. induction ops as [|op ops IH]; intros w0 H0;
      [reflexivity|].
    rewrite run1_cons.
    destruct (step_wire_closed JSON_stringify ToString VITE_BACKEND_URL
                op w0 H0) as [Hs Hw].
    rewrite (IH _ Hs). exact Hw. }
  rewrite H; destruct w; reflexivity.
Qed.

(** X8.  Over any trace the record of emitted events only grows, by at
    most one event per intent call and by none for an inbound event, and
    every new event is named [start_run] or [chat]. *)
Theorem emissions_accounted
    (JSON_stringify : value -> jsstring)
    (ToString : value -> option jsstring)
    (VITE_BACKEND_URL : option jsstring) (ops : list Op) (w : World) :
  exists new : list Emit,
    wire (run JSON_stringify ToString VITE_BACKEND_URL ops w) = wire w ++ new
    /\ List.length new <= count_ops is_intent ops
    /\ Forall outbound_name new.
Proof.
  revert w. induction ops as [|op ops IH]; intros w.
  - exists []. rewrite app_nil_r. repeat split; [cbn; lia | constructor].
  - rewrite run1_cons.
    destruct (IH (exec (step JSON_stringify ToString VITE_BACKEND_URL op) w))
      as [new [Hw [Hl Hn]]].
    destruct (emitted_bound op w) as [Hb Hf].
    exists (emitted op w ++ new).
    rewrite Hw, step_wire, <- app_assoc. split; [reflexivity|].
    split; [|apply Forall_app; split; assumption].
    rewrite length_app. unfold count_ops in *. cbn [filter].
    destruct (is_intent op); cbn [List.length]; lia.
Qed.

(** X9.  [awaitingUser] becomes [true] only through a [mod_ready] or a
    [chat_response] event: if it is [true] after a trace from the mounted
    controller, the trace holds one. *)
Theorem awaitingUser_needs_ready
    (JSON_stringify : value -> jsstring)
    (ToString : value -> option jsstring)
    (VITE_BACKEND_URL : option jsstring) (ops : list Op) :
  awaitingUser (run JSON_stringify ToString VITE_BACKEND_URL ops mounted)
    = true ->
  existsb is_ready ops = true.
Proof.
  assert (H : forall ops w,
            awaitingUser
              (run JSON_stringify ToString VITE_BACKEND_URL ops w) = true ->
            existsb is_ready ops = true \/ awaitingUser w = true).
  { clear. intros ops. induction ops as [|op ops IH]; intros w Hw;
      [right; exact Hw|].
    rewrite run1_cons in Hw. cbn [existsb].
    destruct (IH _ Hw) as [H | H]; [left; rewrite H; apply orb_true_r|].
    destruct (step_awaitingUser _ _ _ _ _ H) as [H' | H'];
      [left; rewrite H'; reflexivity | right; exact H']. }
  intros Hw. destruct (H ops mounted Hw) as [H' | H'];
    [exact H' | discriminate H'].
Qed.

(** X9, an instance: a run up to its [mod_ready]. *)
Lemma awaitingUser_needs_ready_witness :
  awaitingUser
    (run (fun _ => []) (fun _ => None) None
       [CallStartRun (lit "make a sword") None None (lit "id-1");
        EvModReady (JObj [("summary", JStr (lit "Done"))]) (lit "id-2")]
       mounted) = true /\
  existsb is_ready
    [CallStartRun (lit "make a sword") None None (lit "id-1");
     EvModReady (JObj [("summary", JStr (lit "Done"))]) (lit "id-2")] = true.
Proof.
  split; [reflexivity|].
  apply (awaitingUser_needs_ready (fun _ => []) (fun _ => None) None
           [CallStartRun (lit "make a sword") None None (lit "id-1");
            EvModReady (JObj [("summary", JStr (lit "Done"))]) (lit "id-2")]).
  reflexivity.
Defined.

Lemma find_on_strings (pre : jsstring) (xs : list value) (w : World) :
  Forall (fun x => exists s, x = JStr s) xs ->
  exists v, find (fun l => call_startsWith l pre) xs w = (Returned v, w).
Proof.
  induction 1 as [|x xs [s ->] _ IH]; [exists JUndefined; reflexivity|].
  cbn [find]. unfold bind at 1. cbn [call_startsWith]. unfold ret at 1.
  destruct (startsWith s pre); [exists (JStr s); reflexivity | exact IH].
Qed.

(** When [onProgress] throws, neither [message] nor [node] was usable and
    the exception comes from the search of the snapshot. *)
Lemma onProgress_thrown (payload : value) (w w' : World) (e : Exn) :
  onProgress payload w = (Thrown e, w') ->
  (match get payload "message" with
   | JStr m => trim m = []
   | _ => True
   end)
  /\ (match get payload "node" with
      | JStr n => n = []
      | _ => True
      end)
  /\ fst (find (fun l => call_startsWith l (lit "node:"))
            (match get payload "snapshot" with
             | JArr xs => xs
             | _ => []
             end) (busy w)) = Thrown e.
Proof.
  unfold onProgress. unfold bind at 1.
  change (setAwaitingUser false w) with (Returned tt, busy w).
  cbv beta iota zeta.
  set (lines := match get payload "snapshot" with
                | JArr xs => xs
                | _ => []
                end).
  set (fallback :=
    readable <-
      (if is_truthy (match get payload "node" with
                     | JStr n => JStr n
                     | _ => JUndefined
                     end)
       then ret (match get payload "node" with
                 | JStr n => JStr n
                 | _ => JUndefined
                 end)
       else
         found <- find (fun l => call_startsWith l (lit "node:")) lines ;;
         ret (js_or (js_or found (nth 0 lines JUndefined))
                    (JStr (lit "Working...")))) ;;
    setProgressMessages (fun prev => prev ++ [readable])).
  assert (Hfb : fallback (busy w) = (Thrown e, w') ->
    (match get payload "node" with
     | JStr n => n = []
     | _ => True
     end)
    /\ fst (find (fun l => call_startsWith l (lit "node:")) lines (busy w))
       = Thrown e).
  { unfold fallback.
    destruct (get payload "node") as [| | | | [|c n] | |];
      cbn [is_truthy nonempty];
      cbv beta iota delta [bind ret setProgressMessages];
      try discriminate;
      destruct (find (fun l => call_startsWith l (lit "node:")) lines
                  (busy w)) as [[v | e0] w2];
      try discriminate; intros _; destruct e0, e;
      split; reflexivity || exact I. }
  destruct (get payload "message") as [| | | | m | |];
    try (intros H; split; [exact I | exact (Hfb H)]).
  destruct (nonempty m && nonempty (trim m)) eqn:E; [discriminate|].
  intros H. split; [|exact (Hfb H)].
  destruct (trim m) eqn:Et; [reflexivity|].
  destruct m; [discriminate Et|]. discriminate E.
Qed.

(** X10.  [onProgress] returns normally, appending one non-empty line,
    whenever the payload's [snapshot] is missing, is not an array, or is an
    array of strings, whatever [message] and [node] are (absent, [null],
    numbers, objects). *)
Theorem onProgress_returns_on_string_snapshot (payload : value) (w : World) :
  match get payload "snapshot" with
  | JArr xs => Forall (fun x => exists s, x = JStr s) xs
  | _ => True
  end ->
  exists line : jsstring,
    line <> []
    /\ onProgress payload w = (Returned tt, with_line (JStr line) (busy w)).
Proof.
  intros Hs. destruct (onProgress_line payload w) as [H | H]; [exact H|].
  exfalso. apply onProgress_thrown in H. destruct H as [_ [_ H]].
  assert (Hall : Forall (fun x => exists s, x = JStr s)
                   (match get payload "snapshot" with
                    | JArr xs => xs
                    | _ => []
                    end)).
  { destruct (get payload "snapshot"); try constructor. exact Hs. }
  destruct (find_on_strings (lit "node:") _ (busy w) Hall) as [v Hv].
  rewrite Hv in H. discriminate H.
Qed.

(** X10, an instance: a payload whose [message] is a number and whose
    [node] is [null]. *)
Lemma onProgress_returns_on_string_snapshot_witness :
  match get (JObj [("message", JNum 7); ("node", JNull);
                   ("snapshot", JArr [JStr (lit "step 1")])]) "snapshot" with
  | JArr xs => Forall (fun x => exists s, x = JStr s) xs
  | _ => True
  end /\
  exists line : jsstring,
    line <> []
    /\ onProgress (JObj [("message", JNum 7); ("node", JNull);
                         ("snapshot", JArr [JStr (lit "step 1")])]) mounted
       = (Returned tt, with_line (JStr line) (busy mounted)).
Proof.
  split.
  - cbn. constructor; [eexists; reflexivity | constructor].
  - apply (onProgress_returns_on_string_snapshot
             (JObj [("message", JNum 7); ("node", JNull);
                    ("snapshot", JArr [JStr (lit "step 1")])]) mounted).
    cbn. constructor; [eexists; reflexivity | constructor].
Defined.

(** X11.  Only the progress handler and the [mod_ready] handler can
    throw: every other event handler and both intents return normally on
    every input and in every state.  When [onProgress] throws, the
    exception is [TypeError] and the only cell written is [awaitingUser],
    set to [false].  [onModReady] throws exactly when the payload's
    [download_url] is truthy and its string conversion throws; the
    exception is then [TypeError] and the only cell written is
    [summary]. *)
Theorem throwing_handlers
    (JSON_stringify : value -> jsstring)
    (ToString : value -> option jsstring)
    (VITE_BACKEND_URL : option jsstring) (op : Op) (w : World) :
  match op with
  | EvProgress _ =>
      fst (step JSON_stringify ToString VITE_BACKEND_URL op w) = Returned tt
      \/ step JSON_stringify ToString VITE_BACKEND_URL op w =
         (Thrown TypeError,
          mkWorld (socketRef w) (wire w) (connected w) (stage w) (runId w)
            (progressMessages w) (messages w) (summary w) (downloadUrl w)
            (error w) false)
  | EvModReady p _ =>
      if mod_ready_throws ToString p
      then
        exists t : jsstring,
          step JSON_stringify ToString VITE_BACKEND_URL op w =
          (Thrown TypeError,
           mkWorld (socketRef w) (wire w) (connected w) (stage w) (runId w)
             (progressMessages w) (messages w) t (downloadUrl w) (error w)
             (awaitingUser w))
      else
        fst (step JSON_stringify ToString VITE_BACKEND_URL op w) = Returned tt
  | _ =>
      fst (step JSON_stringify ToString VITE_BACKEND_URL op w) = Returned tt
  end.
Proof.
  destruct op as [p | p | p | p | p u | p u | p v a u | r m u]; cbn [step].
  - reflexivity.
  - reflexivity.
  - reflexivity.
  - destruct (onProgress_line p w) as [[line [_ ->]] | ->];
      [left; reflexivity | right].
    destruct w; reflexivity.
  - pose proof (step_shape JSON_stringify ToString VITE_BACKEND_URL
                  (EvModReady p u) w) as H.
    cbn beta iota in H. cbn [step] in H.
    destruct (mod_ready_throws ToString p); [exact H|].
    destruct H as [t [link [_ ->]]]. reflexivity.
  - unfold onChatResponse. cbv zeta.
    match goal with
    | |- context [if nonempty ?x then _ else _] => destruct (nonempty x)
    end; reflexivity.
  - unfold startRun. destruct (nonempty (trim p)); [|reflexivity].
    destruct w as [sr wi co st ri pm ms su du er au]. destruct sr; reflexivity.
  - unfold sendChat. cbv zeta.
    destruct (nonempty (trim m)); [|reflexivity].
    destruct w as [sr wi co st ri pm ms su du er au].
    cbv beta iota zeta delta
      [bind setMessages setProgressMessages setAwaitingUser
       negb fst runId socketRef].
    destruct (is_truthy r); [destruct sr|]; reflexivity.
Qed.

(** X12.  [sendChat] does not see the whitespace around its message:
    calling it with the trimmed message has the same outcome, in state and
    in emitted events, as calling it with the message itself (for every
    [runId] the callback holds). *)
Theorem sendChat_ignores_outer_whitespace
    (r : value) (m uuid : jsstring) (w : World) :
  sendChat r (trim m) uuid w = sendChat r m uuid w.
Proof. unfold sendChat. rewrite trim_idempotent. reflexivity. Qed.

(** ** The page *)

(** The world a non-blank [sendChat] leaves, whatever [runId] its closure
    holds. *)
Lemma sendChat_closure_shape (r : value) (t uuid : jsstring) (w : World) :
  nonempty (trim t) = true ->
  sendChat r t uuid w =
  (Returned tt,
   mkWorld (socketRef w)
     (wire w ++
      (if is_truthy r && socketRef w
       then [mkEmit "chat" (JObj [("run_id", r); ("message", JStr (trim t))])]
       else []))
     (connected w) (stage w) (runId w) []
     (messages w ++ [mkChatMessage uuid user (trim t) None])
     (summary w) (downloadUrl w) (error w) false).
Proof.
  intros Ht. unfold sendChat. cbv zeta. rewrite Ht.
  destruct w as [sr wi co st ri pm ms su du er au].
  cbv beta iota zeta delta
    [bind setMessages setProgressMessages setAwaitingUser negb socketRef
     wire].
  destruct (is_truthy r); [destruct sr|]; cbn [andb];
    try rewrite app_nil_r; reflexivity.
Qed.

Section PageFacts.

Variable JSON_stringify : value -> jsstring.
Variable ToString : value -> option jsstring.
Variable VITE_BACKEND_URL : option jsstring.

Local Abbreviation step1 := (step JSON_stringify ToString VITE_BACKEND_URL).
Local Abbreviation pstep :=
  (page_step JSON_stringify ToString VITE_BACKEND_URL).
Local Abbreviation prun :=
  (page_run JSON_stringify ToString VITE_BACKEND_URL).

Lemma prun_cons (op : UiOp) (ops : list UiOp) (pg : Page) :
  prun (op :: ops) pg = prun ops (pstep op pg).
Proof. reflexivity. Qed.

(** The hero form's submission, through [HeroForm.handleSubmit] and
    [StageContainer.handleSubmit]. *)
Lemma submit_hero_step (uuid : jsstring) (pg : Page) :
  stage (hook pg) = prompt ->
  pstep (SubmitHero uuid) pg =
  if nonempty (trim (promptInput pg))
  then mkPage
         (exec (step1 (CallStartRun (trim (promptInput pg))
                         (Some (mcVersion pg)) None uuid)) (hook pg))
         (mcVersion pg) (selectOpen pg) (promptInput pg) (chatInput pg)
  else pg.
Proof.
  intros Hst. unfold page_step. rewrite Hst.
  unfold HeroForm_handleSubmit, handleSubmit. cbv zeta. cbn [step].
  destruct (nonempty (trim (promptInput pg))) eqn:E; cbn [negb nonempty].
  - rewrite E. reflexivity.
  - destruct pg; reflexivity.
Qed.

(** The composer's submission, through [ResultStage]'s handler and
    [StageContainer.handleSendMessage]. *)
Lemma submit_chat_step (r : value) (uuid : jsstring) (pg : Page) :
  stage (hook pg) = result ->
  pstep (SubmitChat r uuid) pg =
  if awaitingUser (hook pg) && nonempty (trim (chatInput pg))
  then mkPage
         (exec (sendChat r (trim (chatInput pg)) uuid) (hook pg))
         (mcVersion pg) (selectOpen pg) (promptInput pg) []
  else pg.
Proof.
  intros Hst. unfold page_step. rewrite Hst.
  unfold ResultStage_onSubmit, handleSendMessage. cbv zeta.
  destruct (awaitingUser (hook pg)); cbn [negb andb orb].
  - destruct (nonempty (trim (chatInput pg))) eqn:E; cbn [negb orb].
    + rewrite trim_idempotent, E. cbn [negb].
      unfold bind, exec.
      rewrite (sendChat_closure_shape r (trim (chatInput pg)) uuid (hook pg));
        [reflexivity | rewrite trim_idempotent; exact E].
    + destruct pg; reflexivity.
  - rewrite orb_true_r. destruct pg; reflexivity.
Qed.

End PageFacts.

Lemma start_runs_app (a b : list Emit) :
  start_runs (a ++ b) = start_runs a + start_runs b.
Proof. unfold start_runs. rewrite filter_app, length_app. reflexivity. Qed.

Lemma chats_app (a b : list Emit) : chats (a ++ b) = chats a + chats b.
Proof. unfold chats. rewrite filter_app, length_app. reflexivity. Qed.

Lemma emitted_inbound (ev : Op) (w : World) :
  is_intent ev = false -> emitted ev w = [].
Proof. destruct ev; try reflexivity; discriminate. Qed.

Section PageTraces.

Variable JSON_stringify : value -> jsstring.
Variable ToString : value -> option jsstring.
Variable VITE_BACKEND_URL : option jsstring.

Local Abbreviation step1 := (step JSON_stringify ToString VITE_BACKEND_URL).
Local Abbreviation pstep :=
  (page_step JSON_stringify ToString VITE_BACKEND_URL).
Local Abbreviation prun :=
  (page_run JSON_stringify ToString VITE_BACKEND_URL).

(** What a step of the page does to the hook: nothing, the delivery of an
    inbound event, a [startRun] from the hero form, or a [sendChat] from
    the composer. *)
Lemma page_step_hook (op : UiOp) (pg : Page) :
  hook (pstep op pg) = hook pg
  \/ (exists ev,
         op = Inbound ev /\ is_intent ev = false
         /\ hook (pstep op pg) = exec (step1 ev) (hook pg))
  \/ (exists u,
         stage (hook pg) = prompt
         /\ nonempty (trim (promptInput pg)) = true
         /\ hook (pstep op pg) =
            exec (step1 (CallStartRun (trim (promptInput pg))
                           (Some (mcVersion pg)) None u)) (hook pg))
  \/ (exists r u,
         stage (hook pg) = result
         /\ awaitingUser (hook pg) = true
         /\ nonempty (trim (chatInput pg)) = true
         /\ hook (pstep op pg) =
            exec (sendChat r (trim (chatInput pg)) u) (hook pg)).
Proof.
  destruct op as [ev | s | | i | | u | s | r u];
    destruct (stage (hook pg)) eqn:Hst.
  all: try (left; unfold page_step; rewrite Hst; reflexivity).
  - unfold page_step. destruct (is_intent ev) eqn:E; [left; reflexivity|].
    right; left. exists ev. repeat split. exact E.
  - unfold page_step. destruct (is_intent ev) eqn:E; [left; reflexivity|].
    right; left. exists ev. repeat split. exact E.
  - left. unfold page_step. rewrite Hst.
    destruct (selectOpen pg); [|reflexivity].
    destruct (nth_error AVAILABLE_MC_VERSIONS i); reflexivity.
  - rewrite (submit_hero_step _ _ _ u pg Hst).
    destruct (nonempty (trim (promptInput pg))) eqn:E; [|left; reflexivity].
    right; right; left. exists u. repeat split.
  - left. unfold page_step. rewrite Hst.
    destruct (awaitingUser (hook pg)); reflexivity.
  - rewrite (submit_chat_step _ _ _ r u pg Hst).
    destruct (awaitingUser (hook pg)) eqn:Ea; [|left; reflexivity].
    destruct (nonempty (trim (chatInput pg))) eqn:E; [|left; reflexivity].
    right; right; right. exists r, u. repeat split.
Qed.

Lemma page_step_version (op : UiOp) (pg : Page) :
  In (mcVersion pg) AVAILABLE_MC_VERSIONS ->
  In (mcVersion (pstep op pg)) AVAILABLE_MC_VERSIONS.
Proof.
  intros Hv.
  destruct op as [ev | s | | i | | u | s | r u];
    destruct (stage (hook pg)) eqn:Hst.
  all: try (unfold page_step; rewrite Hst; exact Hv).
  - unfold page_step. destruct (is_intent ev); exact Hv.
  - unfold page_step. destruct (is_intent ev); exact Hv.
  - unfold page_step. rewrite Hst.
    destruct (selectOpen pg); [|exact Hv].
    destruct (nth_error AVAILABLE_MC_VERSIONS i) eqn:E; [|exact Hv].
    cbn [mcVersion]. exact (nth_error_In _ _ E).
  - unfold page_step. rewrite Hst.
    destruct (awaitingUser (hook pg)); exact Hv.
  - rewrite (submit_chat_step _ _ _ r u pg Hst).
    destruct (awaitingUser (hook pg) && nonempty (trim (chatInput pg)));
      exact Hv.
Qed.

Lemma page_invariant (P : Page -> Prop) :
  (forall op pg, P pg -> P (pstep op pg)) ->
  forall ops pg, P pg -> P (prun ops pg).
Proof.
  intros Hstep ops. induction ops as [|op ops IH]; intros pg Hpg;
    [exact Hpg|].
  rewrite prun_cons. apply IH, Hstep, Hpg.
Qed.

Lemma page_step_start_runs (op : UiOp) (pg : Page) :
  start_runs (wire (hook pg)) <= 1
  /\ (stage (hook pg) = prompt -> start_runs (wire (hook pg)) = 0) ->
  start_runs (wire (hook (pstep op pg))) <= 1
  /\ (stage (hook (pstep op pg)) = prompt ->
      start_runs (wire (hook (pstep op pg))) = 0).
Proof.
  intros [H1 H0].
  destruct (page_step_hook op pg)
    as [-> | [[ev [_ [Hev ->]]] | [[u [Hst [Hne ->]]] | [r [u [Hst [_ [Hne ->]]]]]]]].
  - split; assumption.
  - rewrite (step_wire JSON_stringify ToString VITE_BACKEND_URL),
      (emitted_inbound _ _ Hev), app_nil_r, step_stage.
    split; [exact H1|].
    destruct (leaves_prompt ToString ev); [discriminate | exact H0].
  - rewrite (step_wire JSON_stringify ToString VITE_BACKEND_URL),
      start_runs_app, (H0 Hst), step_stage.
    cbn [emitted leaves_prompt]. rewrite trim_idempotent, Hne. cbn [andb].
    split; [|discriminate].
    destruct (socketRef (hook pg)); cbn; lia.
  - unfold exec. rewrite (sendChat_closure_shape r _ u (hook pg));
      [|rewrite trim_idempotent; exact Hne].
    cbn [snd wire stage]. rewrite start_runs_app.
    split; [|intros E; rewrite Hst in E; discriminate E].
    destruct (is_truthy r && socketRef (hook pg)); cbn; lia.
Qed.

Lemma page_step_hero_start_run (op : UiOp) (pg : Page) :
  Forall hero_start_run (wire (hook pg))
  /\ In (mcVersion pg) AVAILABLE_MC_VERSIONS ->
  Forall hero_start_run (wire (hook (pstep op pg)))
  /\ In (mcVersion (pstep op pg)) AVAILABLE_MC_VERSIONS.
Proof.
  intros [Hw Hv]. split; [|apply page_step_version; exact Hv].
  destruct (page_step_hook op pg)
    as [-> | [[ev [_ [Hev ->]]] | [[u [Hst [Hne ->]]] | [r [u [Hst [_ [Hne ->]]]]]]]].
  - exact Hw.
  - rewrite (step_wire JSON_stringify ToString VITE_BACKEND_URL),
      (emitted_inbound _ _ Hev), app_nil_r. exact Hw.
  - rewrite (step_wire JSON_stringify ToString VITE_BACKEND_URL).
    apply Forall_app. split; [exact Hw|].
    cbn [emitted]. rewrite trim_idempotent, Hne. cbn [andb].
    destruct (socketRef (hook pg)); constructor; [|constructor].
    unfold hero_start_run. cbn [ev_name ev_payload String.eqb Ascii.eqb
                                Bool.eqb of_option].
    exists (trim (promptInput pg)), (mcVersion pg).
    split; [intros E; rewrite E in Hne; discriminate Hne|].
    split; [apply trim_idempotent|]. split; [exact Hv | reflexivity].
  - unfold exec. rewrite (sendChat_closure_shape r _ u (hook pg));
      [|rewrite trim_idempotent; exact Hne].
    cbn [snd wire]. apply Forall_app. split; [exact Hw|].
    destruct (is_truthy r && socketRef (hook pg)); constructor;
      [exact I | constructor].
Qed.

Lemma page_step_chats (op : UiOp) (pg : Page) :
  chats (wire (hook (pstep op pg)))
  + Nat.b2n (awaitingUser (hook (pstep op pg)))
  <= chats (wire (hook pg)) + Nat.b2n (awaitingUser (hook pg))
     + readies [op].
Proof.
  destruct (page_step_hook op pg)
    as [-> | [[ev [-> [Hev ->]]] | [[u [Hst [Hne ->]]] | [r [u [Hst [Ha [Hne ->]]]]]]]].
  - lia.
  - rewrite (step_wire JSON_stringify ToString VITE_BACKEND_URL),
      (emitted_inbound _ _ Hev), app_nil_r.
    unfold readies. cbn [filter].
    destruct (awaitingUser (exec (step1 ev) (hook pg))) eqn:E.
    + destruct (step_awaitingUser _ _ _ _ _ E) as [-> | ->]; cbn; lia.
    + cbn [Nat.b2n]. lia.
  - pose proof (step_shape JSON_stringify ToString VITE_BACKEND_URL
                  (CallStartRun (trim (promptInput pg)) (Some (mcVersion pg))
                     None u) (hook pg)) as H.
    cbn beta iota in H. rewrite trim_idempotent, Hne in H. rewrite H.
    cbn [wire awaitingUser emitted]. rewrite trim_idempotent, Hne.
    rewrite chats_app. cbn [andb].
    destruct (socketRef (hook pg)); cbn; lia.
  - unfold exec. rewrite (sendChat_closure_shape r _ u (hook pg));
      [|rewrite trim_idempotent; exact Hne].
    cbn [snd wire awaitingUser]. rewrite chats_app, Ha.
    destruct (is_truthy r && socketRef (hook pg)); cbn; lia.
Qed.

End PageTraces.

(** ** Properties of the page *)

(** X13.  Submitting the hero form while it is rendered (stage [prompt])
    on a mounted controller: a textarea that trims to empty changes
    nothing; otherwise the run is started with the trimmed text as prompt,
    the selected version as [mc_version] and no author, and the single user
    message shows the trimmed text. *)
Theorem hero_submit_sends_trimmed
    (JSON_stringify : value -> jsstring)
    (ToString : value -> option jsstring)
    (VITE_BACKEND_URL : option jsstring) (pg : Page) (uuid : jsstring) :
  stage (hook pg) = prompt ->
  socketRef (hook pg) = true ->
  page_step JSON_stringify ToString VITE_BACKEND_URL (SubmitHero uuid) pg =
  if nonempty (trim (promptInput pg))
  then
    mkPage
      (mkWorld true
         (wire (hook pg) ++
          [mkEmit "start_run"
             (JObj [("prompt", JStr (trim (promptInput pg)));
                    ("author", JUndefined);
                    ("mc_version", JStr (mcVersion pg))])])
         (connected (hook pg)) result (runId (hook pg)) []
         [mkChatMessage uuid user (trim (promptInput pg)) None] [] [] None
         false)
      (mcVersion pg) (selectOpen pg) (promptInput pg) (chatInput pg)
  else pg.
Proof.
  intros Hst Hs. rewrite (submit_hero_step _ _ _ uuid pg Hst).
  destruct (nonempty (trim (promptInput pg))) eqn:E; [|reflexivity].
  pose proof (step_shape JSON_stringify ToString VITE_BACKEND_URL
                (CallStartRun (trim (promptInput pg)) (Some (mcVersion pg))
                   None uuid) (hook pg)) as H.
  cbn beta iota in H. rewrite trim_idempotent, E in H. rewrite H.
  cbn [emitted]. rewrite trim_idempotent, E, Hs. reflexivity.
Qed.

(** X13, an instance: ["  a ruby sword "] typed into the fresh page. *)
Lemma hero_submit_sends_trimmed_witness :
  stage (hook (page_step (fun _ => []) (fun _ => None) None
                 (TypePrompt (lit "  a ruby sword ")) page0)) = prompt /\
  socketRef (hook (page_step (fun _ => []) (fun _ => None) None
                     (TypePrompt (lit "  a ruby sword ")) page0)) = true /\
  page_step (fun _ => []) (fun _ => None) None (SubmitHero (lit "id-1"))
    (page_step (fun _ => []) (fun _ => None) None
       (TypePrompt (lit "  a ruby sword ")) page0) =
  mkPage
    (mkWorld true
       [mkEmit "start_run"
          (JObj [("prompt", JStr (lit "a ruby sword"));
                 ("author", JUndefined);
                 ("mc_version", JStr (lit "1.21.1"))])]
       false result JNull []
       [mkChatMessage (lit "id-1") user (lit "a ruby sword") None] [] [] None
       false)
    (lit "1.21.1") false (lit "  a ruby sword ") [].
Proof.
  split; [reflexivity|]. split; [reflexivity|].
  exact (hero_submit_sends_trimmed (fun _ => []) (fun _ => None) None
           (page_step (fun _ => []) (fun _ => None) None
              (TypePrompt (lit "  a ruby sword ")) page0)
           (lit "id-1") eq_refl eq_refl).
Defined.

(** X14.  Submitting the composer while [ResultStage] is rendered: while
    the agent is busy ([awaitingUser] false) or the chat box trims to
    empty, nothing changes, the chat box included; otherwise the trimmed
    text is appended as a user message, the progress log is cleared,
    [awaitingUser] becomes [false], the chat box is emptied, and one [chat]
    event is emitted exactly when the [runId] held by the callback is
    truthy and the socket is there. *)
Theorem chat_submit_gated
    (JSON_stringify : value -> jsstring)
    (ToString : value -> option jsstring)
    (VITE_BACKEND_URL : option jsstring) (pg : Page) (r : value)
    (uuid : jsstring) :
  stage (hook pg) = result ->
  page_step JSON_stringify ToString VITE_BACKEND_URL (SubmitChat r uuid) pg =
  if awaitingUser (hook pg) && nonempty (trim (chatInput pg))
  then
    mkPage
      (mkWorld (socketRef (hook pg))
         (wire (hook pg) ++
          (if is_truthy r && socketRef (hook pg)
           then [mkEmit "chat"
                   (JObj [("run_id", r);
                          ("message", JStr (trim (chatInput pg)))])]
           else []))
         (connected (hook pg)) result (runId (hook pg)) []
         (messages (hook pg) ++
          [mkChatMessage uuid user (trim (chatInput pg)) None])
         (summary (hook pg)) (downloadUrl (hook pg)) (error (hook pg)) false)
      (mcVersion pg) (selectOpen pg) (promptInput pg) []
  else pg.
Proof.
  intros Hst. rewrite (submit_chat_step _ _ _ r uuid pg Hst).
  destruct (awaitingUser (hook pg)); [|reflexivity].
  destruct (nonempty (trim (chatInput pg))) eqn:E; [|reflexivity].
  cbn [andb]. unfold exec.
  rewrite (sendChat_closure_shape r _ uuid (hook pg));
    [|rewrite trim_idempotent; exact E].
  rewrite trim_idempotent, Hst. reflexivity.
Qed.

(** X14, an instance: the follow-up [" more gold "] sent once the mod is
    ready, by a callback that holds the run's id. *)
Lemma chat_submit_gated_witness :
  stage (hook page_idle) = result /\
  page_step (fun _ => []) (fun _ => None) None
    (SubmitChat (JStr (lit "run-a")) (lit "id-3")) page_idle =
  mkPage
    (mkWorld true
       [mkEmit "start_run"
          (JObj [("prompt", JStr (lit "a ruby sword"));
                 ("author", JUndefined);
                 ("mc_version", JStr (lit "1.21.1"))]);
        mkEmit "chat"
          (JObj [("run_id", JStr (lit "run-a"));
                 ("message", JStr (lit "more gold"))])]
       false result (JStr (lit "run-a")) []
       [mkChatMessage (lit "id-1") user (lit "a ruby sword") None;
        mkChatMessage (lit "id-2") agent (lit "Done") None;
        mkChatMessage (lit "id-3") user (lit "more gold") None]
       (lit "Done") [] None false)
    (lit "1.21.1") false (lit " a ruby sword ") [].
Proof.
  split; [reflexivity|].
  exact (chat_submit_gated (fun _ => []) (fun _ => None) None page_idle
           (JStr (lit "run-a")) (lit "id-3") eq_refl).
Defined.

(** X15.  A second submission right after the first does nothing more:
    the composer's first submission leaves the agent busy or was itself
    refused, and the hero form's first submission leaves the stage
    [result] or was itself refused. *)
Theorem double_submit_sends_once
    (JSON_stringify : value -> jsstring)
    (ToString : value -> option jsstring)
    (VITE_BACKEND_URL : option jsstring) (pg : Page) (r r' : value)
    (u u' : jsstring) :
  page_step JSON_stringify ToString VITE_BACKEND_URL (SubmitChat r' u')
    (page_step JSON_stringify ToString VITE_BACKEND_URL (SubmitChat r u) pg)
  = page_step JSON_stringify ToString VITE_BACKEND_URL (SubmitChat r u) pg
  /\ page_step JSON_stringify ToString VITE_BACKEND_URL (SubmitHero u')
       (page_step JSON_stringify ToString VITE_BACKEND_URL (SubmitHero u) pg)
     = page_step JSON_stringify ToString VITE_BACKEND_URL (SubmitHero u) pg.
Proof.
  destruct (stage (hook pg)) eqn:Hst; split.
  - assert (H : page_step JSON_stringify ToString VITE_BACKEND_URL
                  (SubmitChat r u) pg = pg)
      by (unfold page_step; rewrite Hst; reflexivity).
    rewrite H. unfold page_step. rewrite Hst. reflexivity.
  - rewrite (submit_hero_step _ _ _ u pg Hst).
    destruct (nonempty (trim (promptInput pg))) eqn:E.
    + unfold page_step at 1. cbn [hook]. rewrite step_stage.
      cbn [leaves_prompt]. rewrite trim_idempotent, E. reflexivity.
    + rewrite (submit_hero_step _ _ _ u' pg Hst), E. reflexivity.
  - rewrite (submit_chat_step _ _ _ r u pg Hst).
    destruct (awaitingUser (hook pg)) eqn:Ea; cbn [andb].
    + destruct (nonempty (trim (chatInput pg))) eqn:E.
      * unfold exec.
        rewrite (sendChat_closure_shape r _ u (hook pg));
          [|rewrite trim_idempotent; exact E].
        cbn [snd]. rewrite submit_chat_step; [reflexivity | exact Hst].
      * rewrite (submit_chat_step _ _ _ r' u' pg Hst), Ea, E. reflexivity.
    + rewrite (submit_chat_step _ _ _ r' u' pg Hst), Ea. reflexivity.
  - assert (H : page_step JSON_stringify ToString VITE_BACKEND_URL
                  (SubmitHero u) pg = pg)
      by (unfold page_step; rewrite Hst; reflexivity).
    rewrite H. unfold page_step. rewrite Hst. reflexivity.
Qed.

(** X16.  Through the page at most one [start_run] event is ever emitted:
    the hero form is the only caller of [startRun], it is rendered only in
    stage [prompt], and the stage never returns there. *)
Theorem at_most_one_start_run
    (JSON_stringify : value -> jsstring)
    (ToString : value -> option jsstring)
    (VITE_BACKEND_URL : option jsstring) (ops : list UiOp) :
  start_runs
    (wire (hook (page_run JSON_stringify ToString VITE_BACKEND_URL ops
                   page0))) <= 1.
Proof.
  apply (page_invariant JSON_stringify ToString VITE_BACKEND_URL
           (fun pg =>
              start_runs (wire (hook pg)) <= 1
              /\ (stage (hook pg) = prompt ->
                  start_runs (wire (hook pg)) = 0))).
  - apply page_step_start_runs.
  - split; [cbn; lia | reflexivity].
Qed.

(** X17.  Every [start_run] event emitted through the page carries a
    non-empty prompt without surrounding whitespace, no author, and as
    [mc_version] one of the versions of [AVAILABLE_MC_VERSIONS]. *)
Theorem start_run_from_form
    (JSON_stringify : value -> jsstring)
    (ToString : value -> option jsstring)
    (VITE_BACKEND_URL : option jsstring) (ops : list UiOp) :
  Forall hero_start_run
    (wire (hook (page_run JSON_stringify ToString VITE_BACKEND_URL ops
                   page0))).
Proof.
  apply (page_invariant JSON_stringify ToString VITE_BACKEND_URL
           (fun pg =>
              Forall hero_start_run (wire (hook pg))
              /\ In (mcVersion pg) AVAILABLE_MC_VERSIONS)).
  - apply page_step_hero_start_run.
  - split; [constructor | left; reflexivity].
Qed.

(** X18.  Through the page the number of emitted [chat] events never
    exceeds the number of [mod_ready] and [chat_response] events received:
    each follow-up needs the agent to have become idle again. *)
Theorem chats_bounded_by_readies
    (JSON_stringify : value -> jsstring)
    (ToString : value -> option jsstring)
    (VITE_BACKEND_URL : option jsstring) (ops : list UiOp) :
  chats
    (wire (hook (page_run JSON_stringify ToString VITE_BACKEND_URL ops
                   page0))) <= readies ops.
Proof.
  assert (H : forall ops pg,
    chats (wire (hook (page_run JSON_stringify ToString VITE_BACKEND_URL
                         ops pg)))
    + Nat.b2n (awaitingUser
                 (hook (page_run JSON_stringify ToString VITE_BACKEND_URL
                          ops pg)))
    <= chats (wire (hook pg)) + Nat.b2n (awaitingUser (hook pg))
       + readies ops).
  { clear. intros ops. induction ops as [|op ops IH]; intros pg.
    - cbn. lia.
    - rewrite prun_cons.
      pose proof (IH (page_step JSON_stringify ToString VITE_BACKEND_URL
                        op pg)) as H1.
      pose proof (page_step_chats JSON_stringify ToString VITE_BACKEND_URL
                    op pg) as H2.
      assert (H3 : readies (op :: ops) = readies [op] + readies ops).
      { unfold readies. cbn [filter].
        destruct (match op with Inbound ev => is_ready ev | _ => false end);
          reflexivity. }
      lia. }
  specialize (H ops page0). cbn [page0 hook] in H.
  change (chats (wire mounted)) with 0 in H.
  change (awaitingUser mounted) with false in H. cbn [Nat.b2n] in H. lia.
Qed.


Section PageLog.

Variable JSON_stringify : value -> jsstring.
Variable ToString : value -> option jsstring.
Variable VITE_BACKEND_URL : option jsstring.

Local Abbreviation pstep :=
  (page_step JSON_stringify ToString VITE_BACKEND_URL).

Lemma page_step_log (op : UiOp) (pg : Page) :
  stage (hook pg) = result ->
  stage (hook (pstep op pg)) = result
  /\ exists tail,
       messages (hook (pstep op pg)) = messages (hook pg) ++ tail.
Proof.
  intros Hst.
  destruct (page_step_hook JSON_stringify ToString VITE_BACKEND_URL op pg)
    as [-> | [[ev [_ [Hev ->]]] | [[u [Hp _]] | [r [u [_ [_ [Hne ->]]]]]]]].
  - split; [exact Hst|]. exists []. rewrite app_nil_r. reflexivity.
  - rewrite step_stage, Hst. split; [destruct (leaves_prompt ToString ev); reflexivity|].
    pose proof (step_messages JSON_stringify ToString VITE_BACKEND_URL ev
                  (hook pg)) as H.
    destruct ev; try discriminate Hev;
      destruct H as [tail [H _]]; exists tail; exact H.
  - rewrite Hst in Hp. discriminate Hp.
  - unfold exec. rewrite (sendChat_closure_shape r _ u (hook pg));
      [|rewrite trim_idempotent; exact Hne].
    cbn [snd stage messages]. split; [exact Hst|].
    eexists. reflexivity.
Qed.

End PageLog.

(** X20.  Once the page shows [ResultStage] (stage [result]), the message
    log only grows: whatever events arrive and whatever the user does, the
    log at any later time begins with the log as it was, and the stage
    stays [result]. *)
Theorem page_log_grows
    (JSON_stringify : value -> jsstring)
    (ToString : value -> option jsstring)
    (VITE_BACKEND_URL : option jsstring) (ops : list UiOp) (pg : Page) :
  stage (hook pg) = result ->
  stage (hook (page_run JSON_stringify ToString VITE_BACKEND_URL ops pg))
    = result
  /\ exists tail,
       messages
         (hook (page_run JSON_stringify ToString VITE_BACKEND_URL ops pg))
       = messages (hook pg) ++ tail.
Proof.
  revert pg. induction ops as [|op ops IH]; intros pg Hst.
  - split; [exact Hst|]. exists []. rewrite app_nil_r. reflexivity.
  - rewrite prun_cons.
    destruct (page_step_log JSON_stringify ToString VITE_BACKEND_URL op pg
                Hst) as [Hst' [t1 H1]].
    destruct (IH _ Hst') as [Hst'' [t2 H2]].
    split; [exact Hst''|]. exists (t1 ++ t2).
    rewrite H2, H1, app_assoc. reflexivity.
Qed.

(** X20, an instance: from the idle page, a follow-up and its answer. *)
Lemma page_log_grows_witness :
  stage (hook page_idle) = result /\
  stage (hook (page_run (fun _ => []) (fun _ => None) None
                 [SubmitChat (JStr (lit "run-a")) (lit "id-3");
                  Inbound (EvChatResponse
                             (JObj [("message", JStr (lit "All set"))])
                             (lit "id-4"))]
                 page_idle)) = result
  /\ exists tail,
       messages
         (hook (page_run (fun _ => []) (fun _ => None) None
                  [SubmitChat (JStr (lit "run-a")) (lit "id-3");
                   Inbound (EvChatResponse
                              (JObj [("message", JStr (lit "All set"))])
                              (lit "id-4"))]
                  page_idle))
       = messages (hook page_idle) ++ tail.
Proof.
  split; [reflexivity|].
  exact (page_log_grows (fun _ => []) (fun _ => None) None
           [SubmitChat (JStr (lit "run-a")) (lit "id-3");
            Inbound (EvChatResponse
                       (JObj [("message", JStr (lit "All set"))])
                       (lit "id-4"))]
           page_idle eq_refl).
Defined.

(** X21.  The progress log never holds more lines than progress events
    were received: each event adds at most one line, and nothing else adds
    any. *)
Theorem progress_log_bounded
    (JSON_stringify : value -> jsstring)
    (ToString : value -> option jsstring)
    (VITE_BACKEND_URL : option jsstring) (ops : list Op) (w : World) :
  List.length
    (progressMessages (run JSON_stringify ToString VITE_BACKEND_URL ops w))
  <= List.length (progressMessages w) + count_ops is_progress ops.
Proof.
  revert w. induction ops as [|op ops IH]; intros w; [cbn; lia|].
  rewrite run1_cons.
  specialize (IH (exec (step JSON_stringify ToString VITE_BACKEND_URL op) w)).
  assert (H : List.length
                (progressMessages
                   (exec (step JSON_stringify ToString VITE_BACKEND_URL op)
                      w))
              <= List.length (progressMessages w)
                 + (if is_progress op then 1 else 0)).
  { pose proof (step_shape JSON_stringify ToString VITE_BACKEND_URL op w)
      as Hs.
    destruct op as [p | p | p | p | p u | p u | p v a u | r m u];
      cbn beta iota in Hs; cbn [is_progress].
    - rewrite Hs. cbn. lia.
    - destruct Hs as [e ->]. cbn. lia.
    - rewrite Hs. cbn. lia.
    - unfold exec. destruct Hs as [[line [_ ->]] | ->];
        cbn [snd progressMessages]; [rewrite length_app; cbn|]; lia.
    - unfold exec. destruct (mod_ready_throws ToString p);
        [destruct Hs as [t ->] | destruct Hs as [t [link [_ ->]]]];
        cbn; lia.
    - destruct Hs as [[t [_ ->]] | ->]; cbn; lia.
    - destruct (nonempty (trim p)); rewrite Hs; cbn; lia.
    - destruct (nonempty (trim m)); rewrite Hs; cbn; lia. }
  unfold count_ops in *. cbn [filter].
  destruct (is_progress op); cbn [List.length] in *; lia.
Qed.
